(** * SubscriptionApp: billing engine, budget evaluator and CSV export

    A shallow embedding of the computational core of the subscription
    tracker (renderer/js/models, renderer/js/services, renderer/js/utils
    and the CSV helper of main.js), with the properties stated by the
    specification proved (or refuted) on it.

    Conventions of the embedding.
    - A JavaScript Number that carries money or a percentage is an IEEE-754
      binary64 value: Rocq's primitive [float], with its own NaN, infinities
      and signed zeros.
    - A time value (milliseconds since the epoch) and a count of days are
      integral Numbers; they are [Z].  An Invalid Date (time value NaN) is
      [None].
    - A timestamp stored in a record is an ISO-8601 string in the source.
      It is represented by the time value it parses to ([TsText]), with
      [TsEmpty] for a missing or empty one.
    - A String is held as its UTF-8 encoding, one [ascii] per byte; the
      code points that [trim] strips are recognised by their encodings.
    - [throw new Error(msg)] is a result [Err msg]; a service method threads
      the stored collection explicitly. *)

From Stdlib Require Import ZArith Lia Bool List String Ascii Floats Uint63.
From stdpp Require Import list.
Import ListNotations.
Local Open Scope Z_scope.

(** ** ECMAScript Date: time values and the calendar (ECMA-262, 21.4.1) *)

Module JsDate.

Definition msPerDay : Z := 86400000.

Definition Day (t : Z) : Z := t / msPerDay.
Definition TimeWithinDay (t : Z) : Z := t mod msPerDay.

Definition isLeapYear (y : Z) : bool :=
  if negb (y mod 4 =? 0) then false
  else if negb (y mod 100 =? 0) then true
  else if negb (y mod 400 =? 0) then false
  else true.

Definition DaysInYear (y : Z) : Z := if isLeapYear y then 366 else 365.

Definition DayFromYear (y : Z) : Z :=
  365 * (y - 1970) + (y - 1969) / 4 - (y - 1901) / 100 + (y - 1601) / 400.

Definition TimeFromYear (y : Z) : Z := msPerDay * DayFromYear y.

(** ECMA-262 defines YearFromTime(t) as the largest [y] with
    [TimeFromYear y <= t].  This is that year, computed through the
    400/100/4/1-year cycles counted from 1601-01-01 (day -134774);
    [YearFromDay_spec] and [YearFromDay_unique] below show that it is the
    year of the definition. *)
Definition YearFromDay (d : Z) : Z :=
  let n := d + 134774 in
  let c400 := n / 146097 in
  let r400 := n mod 146097 in
  let c100 := Z.min (r400 / 36524) 3 in
  let r100 := r400 - c100 * 36524 in
  let c4 := r100 / 1461 in
  let r4 := r100 mod 1461 in
  let c1 := Z.min (r4 / 365) 3 in
  1601 + 400 * c400 + 100 * c100 + 4 * c4 + c1.

Definition YearFromTime (t : Z) : Z := YearFromDay (Day t).

Definition DayWithinYear (t : Z) : Z := Day t - DayFromYear (YearFromTime t).

Definition InLeapYear (t : Z) : Z :=
  if isLeapYear (YearFromTime t) then 1 else 0.

Definition MonthFromTime (t : Z) : Z :=
  let d := DayWithinYear t in
  let l := InLeapYear t in
  if d <? 31 then 0
  else if d <? 59 + l then 1
  else if d <? 90 + l then 2
  else if d <? 120 + l then 3
  else if d <? 151 + l then 4
  else if d <? 181 + l then 5
  else if d <? 212 + l then 6
  else if d <? 243 + l then 7
  else if d <? 273 + l then 8
  else if d <? 304 + l then 9
  else if d <? 334 + l then 10
  else 11.

Definition DateFromTime (t : Z) : Z :=
  let d := DayWithinYear t in
  let l := InLeapYear t in
  match MonthFromTime t with
  | 0 => d + 1
  | 1 => d - 30
  | 2 => d - 58 - l
  | 3 => d - 89 - l
  | 4 => d - 119 - l
  | 5 => d - 150 - l
  | 6 => d - 180 - l
  | 7 => d - 211 - l
  | 8 => d - 242 - l
  | 9 => d - 272 - l
  | 10 => d - 303 - l
  | _ => d - 333 - l
  end.

(** Day number within the year of the first day of month [m] (0..11). *)
Definition monthStart (leap : bool) (m : Z) : Z :=
  let l := if leap then 1 else 0 in
  match m with
  | 0 => 0
  | 1 => 31
  | 2 => 59 + l
  | 3 => 90 + l
  | 4 => 120 + l
  | 5 => 151 + l
  | 6 => 181 + l
  | 7 => 212 + l
  | 8 => 243 + l
  | 9 => 273 + l
  | 10 => 304 + l
  | _ => 334 + l
  end.

(** Number of days of month [m] (0..11) of year [y]. *)
Definition DaysInMonth (y m : Z) : Z :=
  match m with
  | 1 => if isLeapYear y then 29 else 28
  | 3 | 5 | 8 | 10 => 30
  | _ => 31
  end.

(** MakeDay(year, month, date): the day number of the first day of month
    [month mod 12] of year [year + floor(month / 12)], plus [date - 1].
    [MakeDay_first] shows that the day found has the three fields
    ECMA-262 asks for. *)
Definition MakeDay (year month date : Z) : Z :=
  let ym := year + month / 12 in
  let mn := month mod 12 in
  DayFromYear ym + monthStart (isLeapYear ym) mn + date - 1.

Definition MakeDate (day time : Z) : Z := day * msPerDay + time.

Definition MakeTime (hour min sec ms : Z) : Z :=
  hour * 3600000 + min * 60000 + sec * 1000 + ms.

(** A Date object's [[DateValue]]: [None] is NaN. *)
Definition jsdate : Type := option Z.

Definition maxTime : Z := 8640000000000000.

Definition TimeClip (t : Z) : jsdate :=
  if Z.abs t <=? maxTime then Some t else None.

(** The time zone of the host: the offset of local time from UTC, in
    milliseconds, at a UTC time value (LocalTZA(t, true) of ECMA-262) and at
    a local time value (LocalTZA(t, false)).  The two differ around a
    daylight-saving transition. *)
Record zone : Type := { offsetAtUTC : Z -> Z; offsetAtLocal : Z -> Z }.

(** A zone whose offset never changes. *)
Definition fixedZone (offset : Z) : zone :=
  {| offsetAtUTC := fun _ => offset; offsetAtLocal := fun _ => offset |}.

Section LocalTime.
Variable LocalTZA : zone.

Definition LocalTime (t : Z) : Z := t + offsetAtUTC LocalTZA t.
Definition UTC (t : Z) : Z := t - offsetAtLocal LocalTZA t.

(** Getters return a Number: [None] is NaN. *)
Definition getDate (d : jsdate) : option Z :=
  match d with
  | None => None
  | Some t => Some (DateFromTime (LocalTime t))
  end.

Definition getMonth (d : jsdate) : option Z :=
  match d with
  | None => None
  | Some t => Some (MonthFromTime (LocalTime t))
  end.

Definition getFullYear (d : jsdate) : option Z :=
  match d with
  | None => None
  | Some t => Some (YearFromTime (LocalTime t))
  end.

(** [d.setDate(dt)] *)
Definition setDate (d : jsdate) (dt : option Z) : jsdate :=
  match d, dt with
  | Some t0, Some dt =>
      let t := LocalTime t0 in
      TimeClip (UTC (MakeDate
        (MakeDay (YearFromTime t) (MonthFromTime t) dt) (TimeWithinDay t)))
  | _, _ => None
  end.

(** [d.setMonth(m)] (one argument: the date of the month is kept) *)
Definition setMonth (d : jsdate) (m : option Z) : jsdate :=
  match d, m with
  | Some t0, Some m =>
      let t := LocalTime t0 in
      TimeClip (UTC (MakeDate
        (MakeDay (YearFromTime t) m (DateFromTime t)) (TimeWithinDay t)))
  | _, _ => None
  end.

(** [d.setHours(hour, min, sec, ms)] (four arguments) *)
Definition setHours (d : jsdate) (hour min sec ms : Z) : jsdate :=
  match d with
  | Some t0 =>
      let t := LocalTime t0 in
      TimeClip (UTC (MakeDate (Day t) (MakeTime hour min sec ms)))
  | None => None
  end.

(** [d.setFullYear(y)] (one argument).  On an Invalid Date the time
    value is taken as +0, as ECMA-262 prescribes. *)
Definition setFullYear (d : jsdate) (y : option Z) : jsdate :=
  match y with
  | None => None
  | Some y =>
      let t := match d with Some t0 => LocalTime t0 | None => 0 end in
      TimeClip (UTC (MakeDate
        (MakeDay y (MonthFromTime t) (DateFromTime t)) (TimeWithinDay t)))
  end.
End LocalTime.

(** Number + Number where NaN is [None]. *)
Definition num_add (a : option Z) (b : Z) : option Z :=
  match a with
  | Some x => Some (x + b)
  | None => None
  end.

(** [a <= b] on the time values of two Dates; false when either is NaN. *)
Definition date_leb (a b : jsdate) : bool :=
  match a, b with
  | Some x, Some y => x <=? y
  | _, _ => false
  end.

(** The calendar fields of a local time, as a triple. *)
Definition fields (t : Z) : Z * Z * Z :=
  (YearFromTime t, MonthFromTime t, DateFromTime t).

End JsDate.

(** ** JavaScript values: thrown errors, truthiness, strings *)

Module Js.

(** The outcome of a call that may [throw new Error(msg)]. *)
Inductive result (A : Type) : Type :=
| Ok (a : A)
| Err (msg : string).
Arguments Ok {A} a.
Arguments Err {A} msg.

Definition bind {A B : Type} (r : result A) (k : A -> result B) : result B :=
  match r with
  | Ok a => k a
  | Err msg => Err msg
  end.

Notation "x <- r ;; k" := (bind r (fun x => k))
  (at level 100, r at next level, right associativity).

Definition isOk {A : Type} (r : result A) : bool :=
  match r with Ok _ => true | Err _ => false end.

(** ToBoolean on a Number: false for +0, -0 and NaN. *)
Definition truthy_num (x : float) : bool :=
  negb (x =? 0)%float && negb (is_nan x).

(** ToBoolean on an integral Number. *)
Definition truthy_int (z : Z) : bool := negb (z =? 0).

(** ToBoolean on a String: false for the empty string. *)
Definition truthy_str (s : string) : bool := negb (s =? "")%string.

(** [x || d] where [x] is a possibly absent Number. *)
Definition or_num (x : option float) (d : float) : float :=
  match x with
  | Some v => if truthy_num v then v else d
  | None => d
  end.

(** [x || d] where [x] is a possibly absent integral Number. *)
Definition or_int (x : option Z) (d : Z) : Z :=
  match x with
  | Some v => if truthy_int v then v else d
  | None => d
  end.

(** [x || d] where [x] is a possibly absent String. *)
Definition or_str (x : option string) (d : string) : string :=
  match x with
  | Some v => if truthy_str v then v else d
  | None => d
  end.

(** [x !== undefined ? x : d] *)
Definition defined_or {A : Type} (x : option A) (d : A) : A :=
  match x with
  | Some v => v
  | None => d
  end.

(** The Number of an integral value: the integer itself up to 2^53, and
    beyond the nearest double, ties to even, infinite past the largest one. *)
Definition num_of_int (z : Z) : float :=
  SF2Prim (SpecFloat.binary_normalize FloatOps.prec FloatOps.emax z 0 false).

(** [list.includes(x)] on strings. *)
Definition includes (l : list string) (x : string) : bool :=
  existsb (String.eqb x) l.

(** [list.join(sep)] *)
Definition join (sep : string) (l : list string) : string :=
  String.concat sep l.

(** The UTF-8 encoding of a code point. *)
Definition byte (n : Z) : ascii := ascii_of_N (Z.to_N n).

Definition utf8 (cp : Z) : string :=
  if cp <? 0x80 then String (byte cp) ""
  else if cp <? 0x800 then
    String (byte (0xC0 + cp / 64)) (String (byte (0x80 + cp mod 64)) "")
  else if cp <? 0x10000 then
    String (byte (0xE0 + cp / 4096))
      (String (byte (0x80 + cp / 64 mod 64))
         (String (byte (0x80 + cp mod 64)) ""))
  else
    String (byte (0xF0 + cp / 262144))
      (String (byte (0x80 + cp / 4096 mod 64))
         (String (byte (0x80 + cp / 64 mod 64))
            (String (byte (0x80 + cp mod 64)) ""))).

(** What [trim] strips is WhiteSpace and LineTerminator (ECMA-262, 12.2 and
    12.3).  On one byte: TAB, LF, VT, FF, CR and SP. *)
Definition isWhiteSpace1 (c : ascii) : bool :=
  existsb (Ascii.eqb c) ["009"; "010"; "011"; "012"; "013"; "032"]%char.

(** On two bytes: U+00A0 (C2 A0). *)
Definition isWhiteSpace2 (c1 c2 : ascii) : bool :=
  Ascii.eqb c1 "194" && Ascii.eqb c2 "160".

(** On three bytes: U+1680 (E1 9A 80); U+2000 to U+200A (E2 80 80 to
    E2 80 8A); U+2028, U+2029 and U+202F (E2 80 A8, A9 and AF); U+205F
    (E2 81 9F); U+3000 (E3 80 80); U+FEFF (EF BB BF). *)
Definition isWhiteSpace3 (c1 c2 c3 : ascii) : bool :=
  (Ascii.eqb c1 "225" && Ascii.eqb c2 "154" && Ascii.eqb c3 "128")
  || (Ascii.eqb c1 "226" && Ascii.eqb c2 "128"
      && existsb (Ascii.eqb c3)
           ["128"; "129"; "130"; "131"; "132"; "133"; "134"; "135"; "136";
            "137"; "138"; "168"; "169"; "175"]%char)
  || (Ascii.eqb c1 "226" && Ascii.eqb c2 "129" && Ascii.eqb c3 "159")
  || (Ascii.eqb c1 "227" && Ascii.eqb c2 "128" && Ascii.eqb c3 "128")
  || (Ascii.eqb c1 "239" && Ascii.eqb c2 "187" && Ascii.eqb c3 "191").

(** [s.trimStart()]: the code points of white space that [s] starts with
    are dropped. *)
Fixpoint trimStart (s : string) : string :=
  match s with
  | EmptyString => s
  | String c1 r1 =>
      if isWhiteSpace1 c1 then trimStart r1
      else
        match r1 with
        | EmptyString => s
        | String c2 r2 =>
            if isWhiteSpace2 c1 c2 then trimStart r2
            else
              match r2 with
              | EmptyString => s
              | String c3 r3 =>
                  if isWhiteSpace3 c1 c2 c3 then trimStart r3 else s
              end
        end
  end.

(** [s.trimEnd()]: the bytes of [s] are kept up to the point from which
    only white space is left. *)
Fixpoint trimEnd (s : string) : string :=
  match s with
  | EmptyString => EmptyString
  | String c r =>
      if (trimStart s =? "")%string then EmptyString else String c (trimEnd r)
  end.

(** [s.trim()] *)
Definition trim (s : string) : string := trimEnd (trimStart s).

(** A timestamp held in a record: an ISO-8601 string in the source,
    represented by what [new Date(...)] reads from it.  [TsEmpty] is an
    absent or empty one; [TsText None] a text that is not a date. *)
Inductive timestamp : Type :=
| TsEmpty
| TsText (v : JsDate.jsdate).

(** [new Date(ts)] *)
Definition newDate (ts : timestamp) : JsDate.jsdate :=
  match ts with
  | TsEmpty => None
  | TsText v => v
  end.

(** [d.toISOString()]: a RangeError on an Invalid Date. *)
Definition toISOString (d : JsDate.jsdate) : result timestamp :=
  match d with
  | Some t => Ok (TsText (Some t))
  | None => Err "Invalid time value"
  end.

(** [new Date().toISOString()] at the instant [now]. *)
Definition isoNow (now : Z) : timestamp := TsText (Some now).

(** ToBoolean on a timestamp field. *)
Definition truthy_ts (ts : timestamp) : bool :=
  match ts with
  | TsEmpty => false
  | TsText _ => true
  end.

(** [x || d] where [x] is a possibly absent timestamp. *)
Definition or_ts (x : option timestamp) (d : timestamp) : timestamp :=
  match x with
  | Some v => if truthy_ts v then v else d
  | None => d
  end.

End Js.

(** ** utils/date-utils.js *)

Module BillingCycle.
(** [{ type, customDays }]; [customDays] is [None] when null or absent. *)
Record t : Type := { type : string; customDays : option Z }.
End BillingCycle.

Module DateUtils.
Import JsDate Js.

Section Zone.
Variable LocalTZA : JsDate.zone.

Definition addDays (date : jsdate) (days : Z) : jsdate :=
  let result := date in
  setDate LocalTZA result (num_add (getDate LocalTZA result) days).

Definition addMonths (date : jsdate) (months : Z) : jsdate :=
  let result := date in
  setMonth LocalTZA result (num_add (getMonth LocalTZA result) months).

Definition addYears (date : jsdate) (years : Z) : jsdate :=
  let result := date in
  setFullYear LocalTZA result (num_add (getFullYear LocalTZA result) years).

Definition startOfDay (date : jsdate) : jsdate :=
  let d := date in
  setHours LocalTZA d 0 0 0 0.

Definition endOfDay (date : jsdate) : jsdate :=
  let d := date in
  setHours LocalTZA d 23 59 59 999.

Definition startOfMonth (date : jsdate) : jsdate :=
  let d := date in
  let d := setDate LocalTZA d (Some 1) in
  setHours LocalTZA d 0 0 0 0.

Definition endOfMonth (date : jsdate) : jsdate :=
  let d := date in
  let d := setMonth LocalTZA d (num_add (getMonth LocalTZA d) 1) in
  let d := setDate LocalTZA d (Some 0) in
  setHours LocalTZA d 23 59 59 999.

(** [calculateNextBillingDate(currentDate, billingCycle)]; [currentDate] is
    given as the Date that [new Date(currentDate)] builds. *)
Definition calculateNextBillingDate
    (currentDate : jsdate) (billingCycle : BillingCycle.t) : jsdate :=
  let date := currentDate in
  let type := BillingCycle.type billingCycle in
  let customDays := BillingCycle.customDays billingCycle in
  if (type =? "daily")%string then addDays date 1
  else if (type =? "weekly")%string then addDays date 7
  else if (type =? "monthly")%string then addMonths date 1
  else if (type =? "quarterly")%string then addMonths date 3
  else if (type =? "yearly")%string then addYears date 1
  else if (type =? "custom")%string then addDays date (or_int customDays 30)
  else addMonths date 1.
End Zone.

Definition isWithinRange (date startDate endDate : timestamp) : bool :=
  let d := newDate date in
  let start := newDate startDate in
  let end_ := newDate endDate in
  date_leb start d && date_leb d end_.

End DateUtils.

(** ** models/subscription.js *)

Module Payment.
(** An entry of [history]: [{ date, amount, currency }]. *)
Record t : Type := { date : Js.timestamp; amount : float; currency : string }.
End Payment.

Module Subscription.
Import JsDate Js.

(** The object handed to the constructor; [None] is an absent key. *)
Module Data.
Record t : Type := {
  id : option string;
  name : option string;
  cost : option float;
  currency : option string;
  billingCycle : option BillingCycle.t;
  nextBillingDate : option timestamp;
  category : option string;
  notes : option string;
  paymentMethod : option string;
  isActive : option bool;
  reminderDays : option (list Z);
  createdAt : option timestamp;
  updatedAt : option timestamp;
  history : option (list Payment.t)
}.
End Data.

Record t : Type := {
  id : string;
  name : string;
  cost : float;
  currency : string;
  billingCycle : BillingCycle.t;
  nextBillingDate : timestamp;
  category : string;
  notes : string;
  paymentMethod : string;
  isActive : bool;
  reminderDays : list Z;
  createdAt : timestamp;
  updatedAt : timestamp;
  history : list Payment.t
}.

(** [new Subscription(data)].  [uuid] is what [generateUUID()] would return
    and [now] the instant of [new Date()]. *)
Definition new (uuid : string) (now : Z) (data : Data.t) : t :=
  {| id := or_str (Data.id data) uuid;
     name := or_str (Data.name data) "";
     cost := or_num (Data.cost data) 0;
     currency := or_str (Data.currency data) "USD";
     billingCycle :=
       defined_or (Data.billingCycle data)
         {| BillingCycle.type := "monthly"; BillingCycle.customDays := None |};
     nextBillingDate := or_ts (Data.nextBillingDate data) (isoNow now);
     category := or_str (Data.category data) "Other";
     notes := or_str (Data.notes data) "";
     paymentMethod := or_str (Data.paymentMethod data) "";
     isActive := defined_or (Data.isActive data) true;
     reminderDays := defined_or (Data.reminderDays data) [3];
     createdAt := or_ts (Data.createdAt data) (isoNow now);
     updatedAt := or_ts (Data.updatedAt data) (isoNow now);
     history := defined_or (Data.history data) [] |}.

Definition cycleTypes : list string :=
  ["daily"; "weekly"; "monthly"; "quarterly"; "yearly"; "custom"]%string.

(** [!customDays || customDays <= 0] *)
Definition customDaysInvalid (customDays : option Z) : bool :=
  match customDays with
  | None => true
  | Some n => negb (truthy_int n) || (n <=? 0)
  end.

(** [validate()]: the list [errors], in the order of the pushes. *)
Definition validate (s : t) : list string :=
  (if negb (truthy_str (name s)) || (trim (name s) =? "")%string
   then ["Name is required"%string] else [])
  ++ (if (cost s <=? 0)%float
      then ["Cost must be greater than 0"%string] else [])
  ++ (if negb (truthy_str (currency s))
      then ["Currency is required"%string] else [])
  ++ (if negb (truthy_ts (nextBillingDate s))
      then ["Next billing date is required"%string] else [])
  ++ (if negb (includes cycleTypes (BillingCycle.type (billingCycle s)))
      then ["Invalid billing cycle type"%string] else [])
  ++ (if (BillingCycle.type (billingCycle s) =? "custom")%string
         && customDaysInvalid (BillingCycle.customDays (billingCycle s))
      then ["Custom billing cycle requires valid number of days"%string]
      else []).

Definition set_history (s : t) (h : list Payment.t) : t :=
  {| id := id s; name := name s; cost := cost s; currency := currency s;
     billingCycle := billingCycle s; nextBillingDate := nextBillingDate s;
     category := category s; notes := notes s;
     paymentMethod := paymentMethod s; isActive := isActive s;
     reminderDays := reminderDays s; createdAt := createdAt s;
     updatedAt := updatedAt s; history := h |}.

Definition set_nextBillingDate (s : t) (d : timestamp) : t :=
  {| id := id s; name := name s; cost := cost s; currency := currency s;
     billingCycle := billingCycle s; nextBillingDate := d;
     category := category s; notes := notes s;
     paymentMethod := paymentMethod s; isActive := isActive s;
     reminderDays := reminderDays s; createdAt := createdAt s;
     updatedAt := updatedAt s; history := history s |}.

Definition set_updatedAt (s : t) (d : timestamp) : t :=
  {| id := id s; name := name s; cost := cost s; currency := currency s;
     billingCycle := billingCycle s; nextBillingDate := nextBillingDate s;
     category := category s; notes := notes s;
     paymentMethod := paymentMethod s; isActive := isActive s;
     reminderDays := reminderDays s; createdAt := createdAt s;
     updatedAt := d; history := history s |}.

Section Zone.
Variable LocalTZA : JsDate.zone.

(** The method [calculateNextBillingDate()]: the switch mutates the local
    [currentDate]; the result is its [toISOString()]. *)
Definition calculateNextBillingDate (s : t) : result timestamp :=
  let currentDate := newDate (nextBillingDate s) in
  let type := BillingCycle.type (billingCycle s) in
  let customDays := BillingCycle.customDays (billingCycle s) in
  let currentDate :=
    if (type =? "daily")%string then
      setDate LocalTZA currentDate (num_add (getDate LocalTZA currentDate) 1)
    else if (type =? "weekly")%string then
      setDate LocalTZA currentDate (num_add (getDate LocalTZA currentDate) 7)
    else if (type =? "monthly")%string then
      setMonth LocalTZA currentDate (num_add (getMonth LocalTZA currentDate) 1)
    else if (type =? "quarterly")%string then
      setMonth LocalTZA currentDate (num_add (getMonth LocalTZA currentDate) 3)
    else if (type =? "yearly")%string then
      setFullYear LocalTZA currentDate
        (num_add (getFullYear LocalTZA currentDate) 1)
    else if (type =? "custom")%string then
      match customDays with
      | Some n =>
          if truthy_int n then
            setDate LocalTZA currentDate
              (num_add (getDate LocalTZA currentDate) n)
          else currentDate
      | None => currentDate
      end
    else currentDate in
  toISOString currentDate.

(** [recordPayment()] mutates the object: the pair is what the call
    returns or throws, and the object as the call leaves it. *)
Definition recordPayment (now : Z) (s : t) : result unit * t :=
  let s1 :=
    set_history s
      (history s ++
       [ {| Payment.date := nextBillingDate s;
            Payment.amount := cost s;
            Payment.currency := currency s |} ]) in
  match calculateNextBillingDate s1 with
  | Err msg => (Err msg, s1)
  | Ok next => (Ok tt, set_updatedAt (set_nextBillingDate s1 next) (isoNow now))
  end.
End Zone.

Definition toJSON (s : t) : Data.t :=
  {| Data.id := Some (id s);
     Data.name := Some (name s);
     Data.cost := Some (cost s);
     Data.currency := Some (currency s);
     Data.billingCycle := Some (billingCycle s);
     Data.nextBillingDate := Some (nextBillingDate s);
     Data.category := Some (category s);
     Data.notes := Some (notes s);
     Data.paymentMethod := Some (paymentMethod s);
     Data.isActive := Some (isActive s);
     Data.reminderDays := Some (reminderDays s);
     Data.createdAt := Some (createdAt s);
     Data.updatedAt := Some (updatedAt s);
     Data.history := Some (history s) |}.

(** [Subscription.fromJSON(data)] *)
Definition fromJSON (uuid : string) (now : Z) (data : Data.t) : t :=
  new uuid now data.

(** [{ ...a, ...b }]: a key of [b] wins when present. *)
Definition spread (a b : Data.t) : Data.t :=
  let pick {A : Type} (x y : option A) : option A :=
    match y with Some _ => y | None => x end in
  {| Data.id := pick (Data.id a) (Data.id b);
     Data.name := pick (Data.name a) (Data.name b);
     Data.cost := pick (Data.cost a) (Data.cost b);
     Data.currency := pick (Data.currency a) (Data.currency b);
     Data.billingCycle := pick (Data.billingCycle a) (Data.billingCycle b);
     Data.nextBillingDate :=
       pick (Data.nextBillingDate a) (Data.nextBillingDate b);
     Data.category := pick (Data.category a) (Data.category b);
     Data.notes := pick (Data.notes a) (Data.notes b);
     Data.paymentMethod := pick (Data.paymentMethod a) (Data.paymentMethod b);
     Data.isActive := pick (Data.isActive a) (Data.isActive b);
     Data.reminderDays := pick (Data.reminderDays a) (Data.reminderDays b);
     Data.createdAt := pick (Data.createdAt a) (Data.createdAt b);
     Data.updatedAt := pick (Data.updatedAt a) (Data.updatedAt b);
     Data.history := pick (Data.history a) (Data.history b) |}.

End Subscription.

(** ** models/budget.js *)

Module Period.
(** [{ start, end }]; a bound that is absent is [TsEmpty]. *)
Record t : Type := { start : Js.timestamp; end_ : Js.timestamp }.
End Period.

Module Budget.
Import JsDate Js.

(** The object handed to the constructor; [None] is an absent key.  A
    [category] that is present may be null: [Some None]. *)
Module Data.
Record t : Type := {
  id : option string;
  type : option string;
  amount : option float;
  currency : option string;
  category : option (option string);
  period : option Period.t;
  alertThreshold : option float;
  isActive : option bool;
  createdAt : option timestamp;
  updatedAt : option timestamp
}.
End Data.

Record t : Type := {
  id : string;
  type : string;
  amount : float;
  currency : string;
  category : option string;
  period : Period.t;
  alertThreshold : float;
  isActive : bool;
  createdAt : timestamp;
  updatedAt : timestamp
}.

Section Zone.
Variable LocalTZA : JsDate.zone.

(** [calculatePeriodEnd(type)], with [new Date()] at the instant [now]. *)
Definition calculatePeriodEnd (now : Z) (type : string) : result timestamp :=
  let start : jsdate := Some now in
  let end_ := start in
  let end_ :=
    if (type =? "monthly")%string then
      setMonth LocalTZA end_ (num_add (getMonth LocalTZA end_) 1)
    else if (type =? "yearly")%string then
      setFullYear LocalTZA end_ (num_add (getFullYear LocalTZA end_) 1)
    else setMonth LocalTZA end_ (num_add (getMonth LocalTZA end_) 1) in
  toISOString end_.

(** [new Budget(data)].  The default period is only built when
    [data.period] is absent. *)
Definition new (uuid : string) (now : Z) (data : Data.t) : result t :=
  period <-
    match Data.period data with
    | Some p => Ok p
    | None =>
        e <- calculatePeriodEnd now (or_str (Data.type data) "monthly") ;;
        Ok {| Period.start := isoNow now; Period.end_ := e |}
    end ;;
  Ok {| id := or_str (Data.id data) uuid;
        type := or_str (Data.type data) "monthly";
        amount := or_num (Data.amount data) 0;
        currency := or_str (Data.currency data) "USD";
        category :=
          match Data.category data with
          | Some (Some c) => if truthy_str c then Some c else None
          | _ => None
          end;
        period := period;
        alertThreshold := or_num (Data.alertThreshold data) 80;
        isActive := defined_or (Data.isActive data) true;
        createdAt := or_ts (Data.createdAt data) (isoNow now);
        updatedAt := or_ts (Data.updatedAt data) (isoNow now) |}.
End Zone.

Definition budgetTypes : list string := ["monthly"; "yearly"; "category"]%string.

(** [validate()]: the list [errors], in the order of the pushes. *)
Definition validate (b : t) : list string :=
  (if (amount b <=? 0)%float
   then ["Budget amount must be greater than 0"%string] else [])
  ++ (if negb (includes budgetTypes (type b))
      then ["Invalid budget type"%string] else [])
  ++ (if (alertThreshold b <? 0)%float || (100 <? alertThreshold b)%float
      then ["Alert threshold must be between 0 and 100"%string] else []).

Definition calculatePercentageUsed (b : t) (spent : float) : float :=
  if (amount b =? 0)%float then 0%float
  else (spent / amount b * 100)%float.

Definition shouldAlert (b : t) (spent : float) : bool :=
  let percentageUsed := calculatePercentageUsed b spent in
  (alertThreshold b <=? percentageUsed)%float.

Definition getAlertLevel (b : t) (spent : float) : string :=
  let percentageUsed := calculatePercentageUsed b spent in
  if (100 <=? percentageUsed)%float then "danger"%string
  else if (alertThreshold b <=? percentageUsed)%float then "warning"%string
  else if (alertThreshold b * 0.75 <=? percentageUsed)%float then "info"%string
  else "success"%string.

Definition isInPeriod (b : t) (date : timestamp) : bool :=
  let checkDate := newDate date in
  let start := newDate (Period.start (period b)) in
  let end_ := newDate (Period.end_ (period b)) in
  date_leb start checkDate && date_leb checkDate end_.

Definition toJSON (b : t) : Data.t :=
  {| Data.id := Some (id b);
     Data.type := Some (type b);
     Data.amount := Some (amount b);
     Data.currency := Some (currency b);
     Data.category := Some (category b);
     Data.period := Some (period b);
     Data.alertThreshold := Some (alertThreshold b);
     Data.isActive := Some (isActive b);
     Data.createdAt := Some (createdAt b);
     Data.updatedAt := Some (updatedAt b) |}.

(** [Budget.fromJSON(data)] *)
Definition fromJSON (LocalTZA : JsDate.zone) (uuid : string) (now : Z)
    (data : Data.t) : result t :=
  new LocalTZA uuid now data.

(** [{ ...a, ...b }]: a key of [b] wins when present. *)
Definition spread (a b : Data.t) : Data.t :=
  let pick {A : Type} (x y : option A) : option A :=
    match y with Some _ => y | None => x end in
  {| Data.id := pick (Data.id a) (Data.id b);
     Data.type := pick (Data.type a) (Data.type b);
     Data.amount := pick (Data.amount a) (Data.amount b);
     Data.currency := pick (Data.currency a) (Data.currency b);
     Data.category := pick (Data.category a) (Data.category b);
     Data.period := pick (Data.period a) (Data.period b);
     Data.alertThreshold := pick (Data.alertThreshold a) (Data.alertThreshold b);
     Data.isActive := pick (Data.isActive a) (Data.isActive b);
     Data.createdAt := pick (Data.createdAt a) (Data.createdAt b);
     Data.updatedAt := pick (Data.updatedAt a) (Data.updatedAt b) |}.

End Budget.

(** ** services/subscription-service.js *)

Module SubscriptionService.
Import Js.

(** [list.findIndex(p)] together with the element read at that index;
    [None] is the index -1. *)
Fixpoint findIndex {A : Type} (p : A -> bool) (l : list A) : option (nat * A) :=
  match l with
  | [] => None
  | x :: r =>
      if p x then Some (O, x)
      else match findIndex p r with
           | Some (i, y) => Some (S i, y)
           | None => None
           end
  end.

Definition getActive (subscriptions : list Subscription.t) : list Subscription.t :=
  List.filter (fun sub => Subscription.isActive sub) subscriptions.

Definition getInactive (subscriptions : list Subscription.t) : list Subscription.t :=
  List.filter (fun sub => negb (Subscription.isActive sub)) subscriptions.

(** [getById(id)]; [None] is undefined. *)
Definition getById (subscriptions : list Subscription.t) (id : string)
    : option Subscription.t :=
  List.find (fun sub => (Subscription.id sub =? id)%string) subscriptions.

(** [create(data)]: what the call returns or throws, and the collection
    [this.subscriptions] after it. *)
Definition create (uuid : string) (now : Z)
    (subscriptions : list Subscription.t) (data : Subscription.Data.t)
    : result Subscription.t * list Subscription.t :=
  let subscription := Subscription.new uuid now data in
  let errors := Subscription.validate subscription in
  if Nat.ltb 0 (length errors) then (Err (join ", " errors), subscriptions)
  else (Ok subscription, subscriptions ++ [subscription]).

(** The object literal that [update] hands to the constructor:
    [{ ...existing.toJSON(), ...data, id: existing.id,
       createdAt: existing.createdAt, updatedAt: new Date().toISOString() }] *)
Definition merged (now : Z) (existing : Subscription.t)
    (data : Subscription.Data.t) : Subscription.Data.t :=
  Subscription.spread
    (Subscription.spread (Subscription.toJSON existing) data)
    {| Subscription.Data.id := Some (Subscription.id existing);
       Subscription.Data.name := None;
       Subscription.Data.cost := None;
       Subscription.Data.currency := None;
       Subscription.Data.billingCycle := None;
       Subscription.Data.nextBillingDate := None;
       Subscription.Data.category := None;
       Subscription.Data.notes := None;
       Subscription.Data.paymentMethod := None;
       Subscription.Data.isActive := None;
       Subscription.Data.reminderDays := None;
       Subscription.Data.createdAt := Some (Subscription.createdAt existing);
       Subscription.Data.updatedAt := Some (isoNow now);
       Subscription.Data.history := None |}.

(** [update(id, data)] *)
Definition update (uuid : string) (now : Z)
    (subscriptions : list Subscription.t) (id : string)
    (data : Subscription.Data.t)
    : result Subscription.t * list Subscription.t :=
  match findIndex (fun sub => (Subscription.id sub =? id)%string) subscriptions with
  | None => (Err "Subscription not found", subscriptions)
  | Some (index, existing) =>
      let updated := Subscription.new uuid now (merged now existing data) in
      let errors := Subscription.validate updated in
      if Nat.ltb 0 (length errors) then (Err (join ", " errors), subscriptions)
      else (Ok updated, <[index := updated]> subscriptions)
  end.

(** [delete(id)]; [splice(index, 1)] removes the element at [index]. *)
Definition delete (subscriptions : list Subscription.t) (id : string)
    : result bool * list Subscription.t :=
  match findIndex (fun sub => (Subscription.id sub =? id)%string) subscriptions with
  | None => (Err "Subscription not found", subscriptions)
  | Some (index, _) =>
      (Ok true, firstn index subscriptions ++ skipn (S index) subscriptions)
  end.

(** [recordPayment(id)]: the object found is mutated in place. *)
Definition recordPayment (LocalTZA : JsDate.zone) (now : Z)
    (subscriptions : list Subscription.t) (id : string)
    : result Subscription.t * list Subscription.t :=
  match findIndex (fun sub => (Subscription.id sub =? id)%string) subscriptions with
  | None => (Err "Subscription not found", subscriptions)
  | Some (index, subscription) =>
      match Subscription.recordPayment LocalTZA now subscription with
      | (Err msg, s') => (Err msg, <[index := s']> subscriptions)
      | (Ok _, s') => (Ok s', <[index := s']> subscriptions)
      end
  end.

(** [getSubscriptionMonthlyCost(subscription)] *)
Definition getSubscriptionMonthlyCost (subscription : Subscription.t) : float :=
  let cost := Subscription.cost subscription in
  let type := BillingCycle.type (Subscription.billingCycle subscription) in
  let customDays := BillingCycle.customDays (Subscription.billingCycle subscription) in
  let monthlyCost := cost in
  if (type =? "daily")%string then (cost * 30)%float
  else if (type =? "weekly")%string then (cost * 4)%float
  else if (type =? "monthly")%string then cost
  else if (type =? "quarterly")%string then (cost / 3)%float
  else if (type =? "yearly")%string then (cost / 12)%float
  else if (type =? "custom")%string then
    (cost / num_of_int (or_int customDays 30) * 30)%float
  else monthlyCost.

(** [getTotalMonthlyCost()]: the reducer repeats the switch inline. *)
Definition getTotalMonthlyCost (subscriptions : list Subscription.t) : float :=
  fold_left
    (fun total sub =>
       let cost := Subscription.cost sub in
       let type := BillingCycle.type (Subscription.billingCycle sub) in
       let customDays := BillingCycle.customDays (Subscription.billingCycle sub) in
       let monthlyCost :=
         if (type =? "daily")%string then (cost * 30)%float
         else if (type =? "weekly")%string then (cost * 4)%float
         else if (type =? "monthly")%string then cost
         else if (type =? "quarterly")%string then (cost / 3)%float
         else if (type =? "yearly")%string then (cost / 12)%float
         else if (type =? "custom")%string then
           (cost / num_of_int (or_int customDays 30) * 30)%float
         else cost in
       (total + monthlyCost)%float)
    (getActive subscriptions) 0%float.

End SubscriptionService.

(** ** services/budget-service.js *)

Module BudgetService.
Import Js.

(** [create(data)]: what the call returns or throws, and the collection
    [this.budgets] after it. *)
Definition create (LocalTZA : JsDate.zone) (uuid : string) (now : Z)
    (budgets : list Budget.t) (data : Budget.Data.t)
    : result Budget.t * list Budget.t :=
  match Budget.new LocalTZA uuid now data with
  | Err msg => (Err msg, budgets)
  | Ok budget =>
      let errors := Budget.validate budget in
      if Nat.ltb 0 (length errors) then (Err (join ", " errors), budgets)
      else (Ok budget, budgets ++ [budget])
  end.

(** The object literal that [update] hands to the constructor:
    [{ ...existing.toJSON(), ...data, id: existing.id,
       createdAt: existing.createdAt, updatedAt: new Date().toISOString() }] *)
Definition merged (now : Z) (existing : Budget.t) (data : Budget.Data.t)
    : Budget.Data.t :=
  Budget.spread
    (Budget.spread (Budget.toJSON existing) data)
    {| Budget.Data.id := Some (Budget.id existing);
       Budget.Data.type := None;
       Budget.Data.amount := None;
       Budget.Data.currency := None;
       Budget.Data.category := None;
       Budget.Data.period := None;
       Budget.Data.alertThreshold := None;
       Budget.Data.isActive := None;
       Budget.Data.createdAt := Some (Budget.createdAt existing);
       Budget.Data.updatedAt := Some (isoNow now) |}.

(** [update(id, data)] *)
Definition update (LocalTZA : JsDate.zone) (uuid : string) (now : Z)
    (budgets : list Budget.t) (id : string) (data : Budget.Data.t)
    : result Budget.t * list Budget.t :=
  match SubscriptionService.findIndex
          (fun budget => (Budget.id budget =? id)%string) budgets with
  | None => (Err "Budget not found", budgets)
  | Some (index, existing) =>
      match Budget.new LocalTZA uuid now (merged now existing data) with
      | Err msg => (Err msg, budgets)
      | Ok updated =>
          let errors := Budget.validate updated in
          if Nat.ltb 0 (length errors) then (Err (join ", " errors), budgets)
          else (Ok updated, <[index := updated]> budgets)
      end
  end.

(** [budget.category && sub.category !== budget.category] *)
Definition filteredOut (budget : Budget.t) (sub : Subscription.t) : bool :=
  match Budget.category budget with
  | Some c =>
      truthy_str c && negb (Subscription.category sub =? c)%string
  | None => false
  end.

(** [getSpendingForBudget(budget)], over the subscriptions that
    [subscriptionService.getAll()] returns.  The two [forEach] loops update
    the variable [spent] in turn. *)
Definition getSpendingForBudget
    (subscriptions : list Subscription.t) (budget : Budget.t) : float :=
  let start := Period.start (Budget.period budget) in
  let end_ := Period.end_ (Budget.period budget) in
  fold_left
    (fun spent sub =>
       if filteredOut budget sub then spent
       else
         let spent :=
           fold_left
             (fun spent payment =>
                if DateUtils.isWithinRange (Payment.date payment) start end_
                then (spent + Payment.amount payment)%float
                else spent)
             (Subscription.history sub) spent in
         if Subscription.isActive sub
            && DateUtils.isWithinRange (Subscription.nextBillingDate sub) start end_
         then (spent + Subscription.cost sub)%float
         else spent)
    subscriptions 0%float.

End BudgetService.

(** ** main.js: CSV export *)

Module Csv.

(** A date field of the exported object: absent or empty, a text that
    reads as the time value [t], or any other text. *)
Inductive dateField : Type :=
| DateAbsent
| DateValid (t : Z)
| DateInvalid (raw : string).

(** A subscription as the export handler receives it. *)
Record Sub : Type := {
  name : option string;
  cost : option float;
  currency : option string;
  billingCycle : option BillingCycle.t;
  nextBillingDate : dateField;
  category : option string;
  isActive : bool;
  notes : option string;
  createdAt : dateField
}.

Definition comma : ascii := ","%char.
Definition quote : ascii := ascii_of_nat 34.
Definition newline : ascii := ascii_of_nat 10.

(** [str.includes(c)] for a one-character [c]. *)
Fixpoint includesChar (c : ascii) (str : string) : bool :=
  match str with
  | EmptyString => false
  | String x r => Ascii.eqb x c || includesChar c r
  end.

(** [str.replace] of every double quote by two of them (the global regular
    expression of the source). *)
Fixpoint doubleQuotes (str : string) : string :=
  match str with
  | EmptyString => EmptyString
  | String x r =>
      if Ascii.eqb x quote then String quote (String quote (doubleQuotes r))
      else String x (doubleQuotes r)
  end.

(** [escapeCSV(field)], on a field already converted by [String];
    [None] is null or undefined. *)
Definition escapeCSV (field : option string) : string :=
  match field with
  | None => EmptyString
  | Some str =>
      if includesChar comma str || includesChar quote str || includesChar newline str
      then String quote (doubleQuotes str ++ String quote EmptyString)
      else str
  end.

(** [c.toUpperCase()] on the letters a..z. *)
Definition toUpperCase (c : ascii) : ascii :=
  let n := nat_of_ascii c in
  if Nat.leb 97 n && Nat.leb n 122 then ascii_of_nat (n - 32) else c.

Definition formatBillingCycle (cycle : option BillingCycle.t) : string :=
  match cycle with
  | None => "Monthly"
  | Some c =>
      match BillingCycle.type c with
      | EmptyString => "Monthly"
      | String x r => String (toUpperCase x) r
      end
  end.

Definition headers : list string :=
  ["Name"; "Cost"; "Currency"; "Billing Cycle"; "Next Billing Date";
   "Category"; "Status"; "Notes"; "Created Date"]%string.

Section Host.
(** [String(n)] of a Number, and the date part (before the T) of
    [toISOString()] of a valid time value: both left to the host. *)
Variable numberToString : float -> string.
Variable isoDatePart : Z -> string.

Definition formatDate (dateStr : dateField) : string :=
  match dateStr with
  | DateAbsent => EmptyString
  | DateValid t => isoDatePart t
  | DateInvalid raw => raw
  end.

Definition row (sub : Sub) : string :=
  Js.join ","
    [ escapeCSV (name sub);
      escapeCSV (option_map numberToString (cost sub));
      escapeCSV (Some (Js.or_str (currency sub) "USD"));
      escapeCSV (Some (formatBillingCycle (billingCycle sub)));
      escapeCSV (Some (formatDate (nextBillingDate sub)));
      escapeCSV (Some (Js.or_str (category sub) "Other"));
      escapeCSV (Some (if isActive sub then "Active" else "Inactive")%string);
      escapeCSV (Some (Js.or_str (notes sub) ""));
      escapeCSV (Some (formatDate (createdAt sub))) ].

(** [convertToCSV(data)], on [data.subscriptions || []]. *)
Definition convertToCSV (subscriptions : list Sub) : string :=
  if Nat.eqb (length subscriptions) 0 then
    ("Name,Cost,Currency,Billing Cycle,Next Billing Date,Category,Status,Notes"
       ++ String newline EmptyString)%string
  else
    let rows := map row subscriptions in
    Js.join (String newline EmptyString) (Js.join "," headers :: rows).
End Host.

End Csv.

(** ** The operations as the specification words them

    These definitions follow the text of the specification, not the code;
    the properties below compare the code with them. *)

Module Spec.
Import JsDate Js.

(** Year and month (0..11) reached [k] calendar months after local time [L]. *)
Definition targetYear (L k : Z) : Z := YearFromTime L + (MonthFromTime L + k) / 12.
Definition targetMonth (L k : Z) : Z := (MonthFromTime L + k) mod 12.

(** "+k calendar months, day-of-month preserved; if the target month lacks
    that day, clamps to the last valid day": the local time reached. *)
Definition clampedMonthStep (L k : Z) : Z :=
  let y := targetYear L k in
  let m := targetMonth L k in
  MakeDate (MakeDay y m (Z.min (DateFromTime L) (DaysInMonth y m)))
           (TimeWithinDay L).

(** What [setMonth(getMonth() + k)] reaches from local time [L]: the date of
    the month is counted on from the first day of the target month, past its
    end when the month is shorter. *)
Definition monthStep (L k : Z) : Z :=
  MakeDate (MakeDay (YearFromTime L) (MonthFromTime L + k) (DateFromTime L))
           (TimeWithinDay L).

(** "+n days": the local time [n] days after local time [L], at the same
    time of day. *)
Definition dayStep (L n : Z) : Z := L + n * msPerDay.

(** [nextBillingDate(current, cycle)] of section 4.1, on a valid time value
    [t]: the time value of the next billing date. *)
Definition nextBillingDate (LocalTZA : JsDate.zone) (t : Z)
    (cycle : BillingCycle.t) : Z :=
  let type := BillingCycle.type cycle in
  let L := LocalTime LocalTZA t in
  if (type =? "daily")%string then UTC LocalTZA (dayStep L 1)
  else if (type =? "weekly")%string then UTC LocalTZA (dayStep L 7)
  else if (type =? "monthly")%string then UTC LocalTZA (clampedMonthStep L 1)
  else if (type =? "quarterly")%string then UTC LocalTZA (clampedMonthStep L 3)
  else if (type =? "yearly")%string then UTC LocalTZA (clampedMonthStep L 12)
  else if (type =? "custom")%string then
    match BillingCycle.customDays cycle with
    | Some n => UTC LocalTZA (dayStep L n)
    | None => UTC LocalTZA (dayStep L 30)
    end
  else UTC LocalTZA (clampedMonthStep L 1).

(** The sum of a sequence of Numbers, accumulated from 0 in its order. *)
Definition sum (l : list float) : float := fold_left PrimFloat.add l 0%float.

(** The time value that a timestamp denotes, when it denotes one. *)
Definition timeOf (ts : timestamp) : option Z :=
  match ts with
  | TsText (Some t) => Some t
  | _ => None
  end.

(** A date lies within [period.start, period.end], inclusive: the date and
    the two bounds are dates, and start <= date <= end. *)
Definition inPeriod (budget : Budget.t) (date : timestamp) : bool :=
  match timeOf date,
        timeOf (Period.start (Budget.period budget)),
        timeOf (Period.end_ (Budget.period budget)) with
  | Some d, Some s, Some e => (s <=? d) && (d <=? e)
  | _, _, _ => false
  end.

(** The optional category filter: null matches every subscription.  A
    category that is the empty string is no filter either ([new Budget]
    stores null for it). *)
Definition passesFilter (budget : Budget.t) (sub : Subscription.t) : bool :=
  match Budget.category budget with
  | None => true
  | Some c =>
      if (c =? "")%string then true
      else (Subscription.category sub =? c)%string
  end.

(** What one subscription adds to the spending of a budget: (a) the amount
    of every history payment dated within the period, then (b) its cost,
    once, when it is active and its next billing date is within the period. *)
Definition contributions (budget : Budget.t) (sub : Subscription.t) : list float :=
  map Payment.amount
      (List.filter (fun p => inPeriod budget (Payment.date p))
                   (Subscription.history sub))
  ++ (if Subscription.isActive sub
         && inPeriod budget (Subscription.nextBillingDate sub)
      then [Subscription.cost sub] else []).

(** [spendingForBudget(budget, subscriptions)] of section 4.2. *)
Definition spendingForBudget
    (budget : Budget.t) (subscriptions : list Subscription.t) : float :=
  sum (flat_map (contributions budget)
                (List.filter (passesFilter budget) subscriptions)).

(** The header line of the CSV export: the nine columns in their order. *)
Definition csvHeader : string :=
  "Name,Cost,Currency,Billing Cycle,Next Billing Date,Category,Status,Notes,Created Date".

(** The text before the first line break. *)
Fixpoint firstLine (s : string) : string :=
  match s with
  | EmptyString => EmptyString
  | String c r => if Ascii.eqb c Csv.newline then EmptyString else String c (firstLine r)
  end.

(** *** Section 7: validation of a create or an update *)

(** The code points that are white space or line terminators. *)
Definition whiteSpaceCodePoints : list Z :=
  [0x0009; 0x000A; 0x000B; 0x000C; 0x000D; 0x0020; 0x00A0; 0x1680;
   0x2000; 0x2001; 0x2002; 0x2003; 0x2004; 0x2005; 0x2006; 0x2007;
   0x2008; 0x2009; 0x200A; 0x2028; 0x2029; 0x202F; 0x205F; 0x3000;
   0xFEFF].

(** A string made of white space only; the empty string is one. *)
Inductive blank : string -> Prop :=
| blank_empty : blank ""
| blank_more cp s :
    In cp whiteSpaceCodePoints -> blank s -> blank (utf8 cp ++ s)%string.

Definition positive (x : float) : Prop := (0 <? x)%float = true.

Definition within (lo hi x : float) : Prop :=
  (lo <=? x)%float = true /\ (x <=? hi)%float = true.

(** The validation errors of a subscription: a missing name, a cost that is
    not positive, a cycle type outside the six, a custom cycle without a
    positive [customDays]. *)
Definition nameMissing (s : Subscription.t) : Prop :=
  blank (Subscription.name s).

Definition costNotPositive (s : Subscription.t) : Prop :=
  ~ positive (Subscription.cost s).

Definition cycleTypeInvalid (s : Subscription.t) : Prop :=
  ~ In (BillingCycle.type (Subscription.billingCycle s))
       ["daily"; "weekly"; "monthly"; "quarterly"; "yearly"; "custom"]%string.

Definition customDaysNotPositive (s : Subscription.t) : Prop :=
  BillingCycle.type (Subscription.billingCycle s) = "custom"%string
  /\ ~ (exists n, BillingCycle.customDays (Subscription.billingCycle s) = Some n
                  /\ 0 < n).

Definition subscriptionInvalid (s : Subscription.t) : Prop :=
  nameMissing s \/ costNotPositive s \/ cycleTypeInvalid s
  \/ customDaysNotPositive s.

(** The messages collected for a subscription: one for each error that
    applies, and no other. *)
Definition subscriptionMessages (s : Subscription.t) (msgs : list string) : Prop :=
  List.NoDup msgs
  /\ forall m,
       In m msgs <->
       (m = "Name is required"%string /\ nameMissing s)
       \/ (m = "Cost must be greater than 0"%string /\ costNotPositive s)
       \/ (m = "Invalid billing cycle type"%string /\ cycleTypeInvalid s)
       \/ (m = "Custom billing cycle requires valid number of days"%string
           /\ customDaysNotPositive s).

(** The validation errors of a budget: an amount that is not positive, a
    type outside the three, an alert threshold outside [0, 100]. *)
Definition amountNotPositive (b : Budget.t) : Prop :=
  ~ positive (Budget.amount b).

Definition budgetTypeInvalid (b : Budget.t) : Prop :=
  ~ In (Budget.type b) ["monthly"; "yearly"; "category"]%string.

Definition thresholdOutside (b : Budget.t) : Prop :=
  ~ within 0 100 (Budget.alertThreshold b).

Definition budgetInvalid (b : Budget.t) : Prop :=
  amountNotPositive b \/ budgetTypeInvalid b \/ thresholdOutside b.

Definition budgetMessages (b : Budget.t) (msgs : list string) : Prop :=
  List.NoDup msgs
  /\ forall m,
       In m msgs <->
       (m = "Budget amount must be greater than 0"%string /\ amountNotPositive b)
       \/ (m = "Invalid budget type"%string /\ budgetTypeInvalid b)
       \/ (m = "Alert threshold must be between 0 and 100"%string
           /\ thresholdOutside b).

(** All or nothing.  When the record is invalid the call fails with the one
    error made of all the messages, joined, and the collection is as
    [before]; when it is not the call returns the record and the collection
    is [committed]. *)
Definition allOrNothing {A : Type} (before : list A)
    (outcome : result A * list A) (invalid : Prop)
    (messages : list string -> Prop) (record : A) (committed : list A) : Prop :=
  (invalid ->
   exists msgs, messages msgs /\ msgs <> []
                /\ outcome = (Err (join ", " msgs), before))
  /\ (~ invalid -> outcome = (Ok record, committed)).

(** The stored record that an update of [id] is about: the first one of
    the collection with that identifier, at position [i]. *)
Definition foundAt {A : Type} (ident : A -> string) (l : list A)
    (id : string) (i : nat) (e : A) : Prop :=
  nth_error l i = Some e
  /\ ident e = id
  /\ forall j x, (j < i)%nat -> nth_error l j = Some x -> ident x <> id.

(** The collection with [r] in the place of position [i]. *)
Definition replaced {A : Type} (l : list A) (i : nat) (r : A) : list A :=
  firstn i l ++ r :: skipn (S i) l.

(** A key of the data of an update when it is present, the stored value
    when it is not. *)
Definition given {A : Type} (stored : A) (key : option A) : A :=
  match key with
  | Some v => v
  | None => stored
  end.

(** What an update builds the new record from: the stored record with the
    keys of [data] laid over it; the identifier and the creation date stay,
    and the date of update is [now]. *)
Definition subscriptionUpdate (now : Z) (e : Subscription.t)
    (data : Subscription.Data.t) : Subscription.Data.t :=
  {| Subscription.Data.id := Some (Subscription.id e);
     Subscription.Data.name :=
       Some (given (Subscription.name e) (Subscription.Data.name data));
     Subscription.Data.cost :=
       Some (given (Subscription.cost e) (Subscription.Data.cost data));
     Subscription.Data.currency :=
       Some (given (Subscription.currency e) (Subscription.Data.currency data));
     Subscription.Data.billingCycle :=
       Some (given (Subscription.billingCycle e)
               (Subscription.Data.billingCycle data));
     Subscription.Data.nextBillingDate :=
       Some (given (Subscription.nextBillingDate e)
               (Subscription.Data.nextBillingDate data));
     Subscription.Data.category :=
       Some (given (Subscription.category e) (Subscription.Data.category data));
     Subscription.Data.notes :=
       Some (given (Subscription.notes e) (Subscription.Data.notes data));
     Subscription.Data.paymentMethod :=
       Some (given (Subscription.paymentMethod e)
               (Subscription.Data.paymentMethod data));
     Subscription.Data.isActive :=
       Some (given (Subscription.isActive e) (Subscription.Data.isActive data));
     Subscription.Data.reminderDays :=
       Some (given (Subscription.reminderDays e)
               (Subscription.Data.reminderDays data));
     Subscription.Data.createdAt := Some (Subscription.createdAt e);
     Subscription.Data.updatedAt := Some (isoNow now);
     Subscription.Data.history :=
       Some (given (Subscription.history e) (Subscription.Data.history data)) |}.

Definition budgetUpdate (now : Z) (e : Budget.t) (data : Budget.Data.t)
    : Budget.Data.t :=
  {| Budget.Data.id := Some (Budget.id e);
     Budget.Data.type := Some (given (Budget.type e) (Budget.Data.type data));
     Budget.Data.amount :=
       Some (given (Budget.amount e) (Budget.Data.amount data));
     Budget.Data.currency :=
       Some (given (Budget.currency e) (Budget.Data.currency data));
     Budget.Data.category :=
       Some (given (Budget.category e) (Budget.Data.category data));
     Budget.Data.period :=
       Some (given (Budget.period e) (Budget.Data.period data));
     Budget.Data.alertThreshold :=
       Some (given (Budget.alertThreshold e) (Budget.Data.alertThreshold data));
     Budget.Data.isActive :=
       Some (given (Budget.isActive e) (Budget.Data.isActive data));
     Budget.Data.createdAt := Some (Budget.createdAt e);
     Budget.Data.updatedAt := Some (isoNow now) |}.

End Spec.

(** ** Concrete values used in the examples *)

Module Examples.
Import JsDate Js.

(** The zone of UTC, and the zone of New York in 2024: five hours behind
    UTC, four from 2024-03-10T07:00Z to 2024-11-03T06:00Z (local times
    from 03:00 on 10 March to 02:00 on 3 November). *)
Definition utc : zone := fixedZone 0.

Definition newYork : zone :=
  {| offsetAtUTC := fun t =>
       if (1710054000000 <=? t) && (t <? 1730613600000)
       then -14400000 else -18000000;
     offsetAtLocal := fun t =>
       if (1710039600000 <=? t) && (t <? 1730599200000)
       then -14400000 else -18000000 |}.

(** 2024-03-09T17:00:00.000Z, noon in New York on the eve of the change to
    daylight-saving time. *)
Definition mar09_2024_17h : Z := 1710003600000.

(** 2024-01-31T00:00:00.000Z, 2024-02-29T00:00:00.000Z and
    2024-03-02T00:00:00.000Z as time values. *)
Definition jan31_2024 : Z := 1706659200000.
Definition feb29_2024 : Z := 1709164800000.
Definition mar02_2024 : Z := 1709337600000.

Definition cycle (type : string) (customDays : option Z) : BillingCycle.t :=
  {| BillingCycle.type := type; BillingCycle.customDays := customDays |}.

(** A subscription of cost 10 billed next on 2024-01-31, with the given
    billing cycle and payment history. *)
Definition subscription (c : BillingCycle.t) (h : list Payment.t) : Subscription.t :=
  {| Subscription.id := "s1";
     Subscription.name := "Video";
     Subscription.cost := 10;
     Subscription.currency := "USD";
     Subscription.billingCycle := c;
     Subscription.nextBillingDate := TsText (Some jan31_2024);
     Subscription.category := "Streaming";
     Subscription.notes := "";
     Subscription.paymentMethod := "";
     Subscription.isActive := true;
     Subscription.reminderDays := [3];
     Subscription.createdAt := TsText (Some 0);
     Subscription.updatedAt := TsText (Some 0);
     Subscription.history := h |}.

(** A payment of the given amount, in USD. *)
Definition payment (t : Z) (amount : float) : Payment.t :=
  {| Payment.date := TsText (Some t);
     Payment.amount := amount;
     Payment.currency := "USD" |}.

(** An active monthly budget over the period [start, end_]. *)
Definition budget (amount alertThreshold : float) (category : option string)
    (start end_ : timestamp) : Budget.t :=
  {| Budget.id := "b1";
     Budget.type := "monthly";
     Budget.amount := amount;
     Budget.currency := "USD";
     Budget.category := category;
     Budget.period := {| Period.start := start; Period.end_ := end_ |};
     Budget.alertThreshold := alertThreshold;
     Budget.isActive := true;
     Budget.createdAt := TsText (Some 0);
     Budget.updatedAt := TsText (Some 0) |}.

(** January 2024: 2024-01-01T00:00:00.000Z to 2024-02-01T00:00:00.000Z. *)
Definition jan01_2024 : Z := 1704067200000.
Definition feb01_2024 : Z := 1706745600000.

Definition january (amount alertThreshold : float) : Budget.t :=
  budget amount alertThreshold None
    (TsText (Some jan01_2024)) (TsText (Some feb01_2024)).

(** The object from which [new Budget] builds [january amount 80] when
    [alertThreshold] is absent or 0. *)
Definition januaryData (amount : float) (alertThreshold : option float)
    : Budget.Data.t :=
  {| Budget.Data.id := Some "b1"%string;
     Budget.Data.type := Some "monthly"%string;
     Budget.Data.amount := Some amount;
     Budget.Data.currency := Some "USD"%string;
     Budget.Data.category := None;
     Budget.Data.period :=
       Some {| Period.start := TsText (Some jan01_2024);
               Period.end_ := TsText (Some feb01_2024) |};
     Budget.Data.alertThreshold := alertThreshold;
     Budget.Data.isActive := Some true;
     Budget.Data.createdAt := Some (TsText (Some 0));
     Budget.Data.updatedAt := Some (TsText (Some 0)) |}.

(** An active subscription of the given cost, due at the time value [t],
    with the given payment history. *)
Definition dueOn (t : Z) (cost : float) (h : list Payment.t) : Subscription.t :=
  {| Subscription.id := "s2";
     Subscription.name := "Music";
     Subscription.cost := cost;
     Subscription.currency := "USD";
     Subscription.billingCycle := cycle "monthly" None;
     Subscription.nextBillingDate := TsText (Some t);
     Subscription.category := "Music";
     Subscription.notes := "";
     Subscription.paymentMethod := "";
     Subscription.isActive := true;
     Subscription.reminderDays := [3];
     Subscription.createdAt := TsText (Some 0);
     Subscription.updatedAt := TsText (Some 0);
     Subscription.history := h |}.

(** The subscription above at another cost. *)
Definition costing (cost : float) (c : BillingCycle.t) : Subscription.t :=
  {| Subscription.id := "s1";
     Subscription.name := "Video";
     Subscription.cost := cost;
     Subscription.currency := "USD";
     Subscription.billingCycle := c;
     Subscription.nextBillingDate := TsText (Some jan31_2024);
     Subscription.category := "Streaming";
     Subscription.notes := "";
     Subscription.paymentMethod := "";
     Subscription.isActive := true;
     Subscription.reminderDays := [3];
     Subscription.createdAt := TsText (Some 0);
     Subscription.updatedAt := TsText (Some 0);
     Subscription.history := [] |}.

(** A subscription made inactive. *)
Definition inactive (s : Subscription.t) : Subscription.t :=
  {| Subscription.id := Subscription.id s;
     Subscription.name := Subscription.name s;
     Subscription.cost := Subscription.cost s;
     Subscription.currency := Subscription.currency s;
     Subscription.billingCycle := Subscription.billingCycle s;
     Subscription.nextBillingDate := Subscription.nextBillingDate s;
     Subscription.category := Subscription.category s;
     Subscription.notes := Subscription.notes s;
     Subscription.paymentMethod := Subscription.paymentMethod s;
     Subscription.isActive := false;
     Subscription.reminderDays := Subscription.reminderDays s;
     Subscription.createdAt := Subscription.createdAt s;
     Subscription.updatedAt := Subscription.updatedAt s;
     Subscription.history := Subscription.history s |}.

(** The data of an update that changes the name and the cost only. *)
Definition renaming (name : string) (cost : float) : Subscription.Data.t :=
  {| Subscription.Data.id := None;
     Subscription.Data.name := Some name;
     Subscription.Data.cost := Some cost;
     Subscription.Data.currency := None;
     Subscription.Data.billingCycle := None;
     Subscription.Data.nextBillingDate := None;
     Subscription.Data.category := None;
     Subscription.Data.notes := None;
     Subscription.Data.paymentMethod := None;
     Subscription.Data.isActive := None;
     Subscription.Data.reminderDays := None;
     Subscription.Data.createdAt := None;
     Subscription.Data.updatedAt := None;
     Subscription.Data.history := None |}.

(** The data of an update that changes the alert threshold only. *)
Definition threshold (alertThreshold : float) : Budget.Data.t :=
  {| Budget.Data.id := None;
     Budget.Data.type := None;
     Budget.Data.amount := None;
     Budget.Data.currency := None;
     Budget.Data.category := None;
     Budget.Data.period := None;
     Budget.Data.alertThreshold := Some alertThreshold;
     Budget.Data.isActive := None;
     Budget.Data.createdAt := None;
     Budget.Data.updatedAt := None |}.

(** The collections that the examples of create and update start from. *)
Definition stored : list Subscription.t := [costing 10 (cycle "monthly" None)].

Definition storedBudgets : list Budget.t := [january 100 80].

(** U+00A0 NO-BREAK SPACE followed by U+3000 IDEOGRAPHIC SPACE. *)
Definition spaces : string := (utf8 0x00A0 ++ utf8 0x3000)%string.

(** What the subscription form submits: a name, a cost and a cycle type. *)
Definition formData (name : string) (cost : float) (type : string)
    : Subscription.Data.t :=
  {| Subscription.Data.id := None;
     Subscription.Data.name := Some name;
     Subscription.Data.cost := Some cost;
     Subscription.Data.currency := Some "USD"%string;
     Subscription.Data.billingCycle := Some (cycle type None);
     Subscription.Data.nextBillingDate := Some (TsText (Some jan31_2024));
     Subscription.Data.category := Some "Streaming"%string;
     Subscription.Data.notes := Some ""%string;
     Subscription.Data.paymentMethod := None;
     Subscription.Data.isActive := None;
     Subscription.Data.reminderDays := None;
     Subscription.Data.createdAt := None;
     Subscription.Data.updatedAt := None;
     Subscription.Data.history := None |}.

(** The empty object [{}], from which the constructors take every
    default. *)
Definition noData : Subscription.Data.t :=
  {| Subscription.Data.id := None;
     Subscription.Data.name := None;
     Subscription.Data.cost := None;
     Subscription.Data.currency := None;
     Subscription.Data.billingCycle := None;
     Subscription.Data.nextBillingDate := None;
     Subscription.Data.category := None;
     Subscription.Data.notes := None;
     Subscription.Data.paymentMethod := None;
     Subscription.Data.isActive := None;
     Subscription.Data.reminderDays := None;
     Subscription.Data.createdAt := None;
     Subscription.Data.updatedAt := None;
     Subscription.Data.history := None |}.

Definition noBudgetData : Budget.Data.t :=
  {| Budget.Data.id := None;
     Budget.Data.type := None;
     Budget.Data.amount := None;
     Budget.Data.currency := None;
     Budget.Data.category := None;
     Budget.Data.period := None;
     Budget.Data.alertThreshold := None;
     Budget.Data.isActive := None;
     Budget.Data.createdAt := None;
     Budget.Data.updatedAt := None |}.

(** 2024-01-15T00:00:00.000Z *)
Definition jan15_2024 : Z := 1705276800000.

(** A subscription whose next billing date is a text that is not a date. *)
Definition undated : Subscription.t :=
  {| Subscription.id := "s3";
     Subscription.name := "News";
     Subscription.cost := 10;
     Subscription.currency := "USD";
     Subscription.billingCycle := cycle "monthly" None;
     Subscription.nextBillingDate := TsText None;
     Subscription.category := "Other";
     Subscription.notes := "";
     Subscription.paymentMethod := "";
     Subscription.isActive := true;
     Subscription.reminderDays := [3];
     Subscription.createdAt := TsText (Some 0);
     Subscription.updatedAt := TsText (Some 0);
     Subscription.history := [] |}.

End Examples.

(** * Properties *)

Import JsDate Js.

(** ** The calendar of ECMA-262 *)

Lemma DayFromYear_succ y : DayFromYear (y + 1) = DayFromYear y + DaysInYear y.
Proof.
  unfold DayFromYear, DaysInYear, isLeapYear.
  repeat match goal with
         | |- context [?a =? ?b] => destruct (Z.eqb_spec a b)
         end; cbn [negb]; Z.div_mod_to_equations; lia.
Qed.

Lemma DayFromYear_mono y1 y2 : y1 <= y2 -> DayFromYear y1 <= DayFromYear y2.
Proof. unfold DayFromYear. intros H. Z.div_mod_to_equations. lia. Qed.

(** [YearFromDay d] is a year that contains day [d] ... *)
Lemma YearFromDay_spec d :
  DayFromYear (YearFromDay d) <= d < DayFromYear (YearFromDay d + 1).
Proof.
  unfold YearFromDay, DayFromYear. cbv zeta.
  Z.div_mod_to_equations; lia.
Qed.

(** ... and the only one. *)
Lemma YearFromDay_unique d y :
  DayFromYear y <= d < DayFromYear (y + 1) -> YearFromDay d = y.
Proof.
  intros [Hlo Hhi]. pose proof (YearFromDay_spec d) as [Hlo' Hhi'].
  destruct (Z.lt_trichotomy (YearFromDay d) y) as [Hlt | [Heq | Hgt]];
    [ | exact Heq | ].
  - pose proof (DayFromYear_mono (YearFromDay d + 1) y ltac:(lia)). lia.
  - pose proof (DayFromYear_mono (y + 1) (YearFromDay d) ltac:(lia)). lia.
Qed.

(** YearFromTime(t) is the largest [y] such that [TimeFromYear y <= t]. *)
Lemma YearFromTime_largest t y : TimeFromYear y <= t <-> y <= YearFromTime t.
Proof.
  unfold TimeFromYear, YearFromTime, Day, msPerDay.
  pose proof (YearFromDay_spec (t / 86400000)) as [Hlo Hhi].
  split; intros H.
  - destruct (Z_le_gt_dec y (YearFromDay (t / 86400000))) as [|Hgt];
      [assumption|].
    pose proof (DayFromYear_mono (YearFromDay (t / 86400000) + 1) y ltac:(lia)).
    Z.div_mod_to_equations. lia.
  - pose proof (DayFromYear_mono y _ H). Z.div_mod_to_equations. lia.
Qed.

Lemma TimeWithinDay_range t : 0 <= TimeWithinDay t < msPerDay.
Proof. unfold TimeWithinDay, msPerDay. apply Z.mod_pos_bound. lia. Qed.

Lemma MakeDate_Day t : MakeDate (Day t) (TimeWithinDay t) = t.
Proof.
  unfold MakeDate, Day, TimeWithinDay, msPerDay.
  Z.div_mod_to_equations. lia.
Qed.

Lemma Day_MakeDate d tod :
  0 <= tod < msPerDay ->
  Day (MakeDate d tod) = d /\ TimeWithinDay (MakeDate d tod) = tod.
Proof.
  unfold MakeDate, Day, TimeWithinDay, msPerDay. intros H.
  Z.div_mod_to_equations. lia.
Qed.

Lemma DayWithinYear_range t :
  0 <= DayWithinYear t < DaysInYear (YearFromTime t).
Proof.
  unfold DayWithinYear, YearFromTime.
  pose proof (YearFromDay_spec (Day t)) as H.
  rewrite DayFromYear_succ in H. lia.
Qed.

Ltac split_ltb :=
  repeat match goal with
         | |- context [?a <? ?b] => destruct (Z.ltb_spec a b)
         end.

Lemma MonthFromTime_range t : 0 <= MonthFromTime t < 12.
Proof. unfold MonthFromTime. cbv zeta. split_ltb; lia. Qed.

(** The table of DateFromTime counts from the first day of the month. *)
Lemma DateFromTime_monthStart t :
  DateFromTime t =
  DayWithinYear t - monthStart (isLeapYear (YearFromTime t)) (MonthFromTime t) + 1.
Proof.
  unfold DateFromTime, MonthFromTime, InLeapYear. cbv zeta.
  destruct (isLeapYear (YearFromTime t)); split_ltb; cbn; lia.
Qed.

Lemma DateFromTime_range t :
  1 <= DateFromTime t <= DaysInMonth (YearFromTime t) (MonthFromTime t).
Proof.
  rewrite DateFromTime_monthStart.
  pose proof (DayWithinYear_range t) as H. revert H.
  unfold MonthFromTime, InLeapYear, DaysInYear, DaysInMonth. cbv zeta.
  destruct (isLeapYear (YearFromTime t)); split_ltb; cbn; lia.
Qed.

Lemma DaysInMonth_bounds y m : 28 <= DaysInMonth y m <= 31.
Proof.
  unfold DaysInMonth.
  destruct m as [|p|p]; try lia;
    do 4 (try destruct p as [p|p|]); try lia; destruct (isLeapYear y); lia.
Qed.

Lemma MakeDay_normal y m d :
  0 <= m < 12 ->
  MakeDay y m d = DayFromYear y + monthStart (isLeapYear y) m + d - 1.
Proof.
  intros H. unfold MakeDay. cbv zeta.
  rewrite (Z.div_small m 12), (Z.mod_small m 12), Z.add_0_r by lia.
  reflexivity.
Qed.

(** The fields of a time value give back its day: MakeDay inverts them. *)
Lemma MakeDay_fields t n :
  MakeDay (YearFromTime t) (MonthFromTime t) (DateFromTime t + n) = Day t + n.
Proof.
  rewrite MakeDay_normal by apply MonthFromTime_range.
  rewrite DateFromTime_monthStart. unfold DayWithinYear. lia.
Qed.

Lemma month_cases m :
  0 <= m < 12 ->
  m = 0 \/ m = 1 \/ m = 2 \/ m = 3 \/ m = 4 \/ m = 5 \/ m = 6 \/ m = 7 \/
  m = 8 \/ m = 9 \/ m = 10 \/ m = 11.
Proof. lia. Qed.

Ltac by_month H :=
  apply month_cases in H;
  repeat (destruct H as [H | H]); subst.

(** A valid year, month and date are the fields of the day MakeDay finds. *)
Lemma fields_MakeDay y m d tod :
  0 <= m < 12 -> 1 <= d <= DaysInMonth y m -> 0 <= tod < msPerDay ->
  fields (MakeDate (MakeDay y m d) tod) = (y, m, d).
Proof.
  intros Hm Hd Htod.
  assert (Hy : YearFromTime (MakeDate (MakeDay y m d) tod) = y).
  { unfold YearFromTime. rewrite (proj1 (Day_MakeDate _ _ Htod)).
    apply YearFromDay_unique.
    rewrite DayFromYear_succ, MakeDay_normal by assumption.
    revert Hd. unfold DaysInYear, DaysInMonth.
    by_month Hm; destruct (isLeapYear y); cbn; lia. }
  assert (Hw : DayWithinYear (MakeDate (MakeDay y m d) tod)
               = monthStart (isLeapYear y) m + d - 1).
  { unfold DayWithinYear. rewrite Hy, (proj1 (Day_MakeDate _ _ Htod)).
    rewrite MakeDay_normal by assumption. lia. }
  assert (Hmo : MonthFromTime (MakeDate (MakeDay y m d) tod) = m).
  { unfold MonthFromTime, InLeapYear. rewrite Hw, Hy. cbv zeta.
    revert Hd. unfold DaysInMonth.
    by_month Hm; destruct (isLeapYear y); cbn; intros; split_ltb; lia. }
  unfold fields. rewrite Hy, Hmo. f_equal.
  rewrite DateFromTime_monthStart, Hw, Hy, Hmo. lia.
Qed.

(** MakeDay(y, m, 1) is the day ECMA-262 asks for: year [y + floor(m/12)],
    month [m mod 12], date 1. *)
Lemma MakeDay_first y m :
  fields (MakeDate (MakeDay y m 1) 0) = (y + m / 12, m mod 12, 1).
Proof.
  assert (Hn : MakeDay y m 1 = MakeDay (y + m / 12) (m mod 12) 1).
  { unfold MakeDay. cbv zeta. rewrite Z.mod_mod by lia.
    rewrite (Z.div_small (m mod 12) 12) by (apply Z.mod_pos_bound; lia).
    rewrite Z.add_0_r. reflexivity. }
  rewrite Hn. apply fields_MakeDay.
  - apply Z.mod_pos_bound. lia.
  - pose proof (DaysInMonth_bounds (y + m / 12) (m mod 12)). lia.
  - unfold msPerDay. lia.
Qed.

Lemma MakeDay_month_norm y m d :
  MakeDay y m d = MakeDay (y + m / 12) (m mod 12) d.
Proof.
  unfold MakeDay. cbv zeta. rewrite Z.mod_mod by lia.
  rewrite (Z.div_small (m mod 12) 12) by (apply Z.mod_pos_bound; lia).
  rewrite Z.add_0_r. reflexivity.
Qed.

Ltac fold_const_12 :=
  repeat match goal with
         | |- context [?a mod 12] =>
             let v := eval vm_compute in (a mod 12) in change (a mod 12) with v
         | |- context [?a / 12] =>
             let v := eval vm_compute in (a / 12) in change (a / 12) with v
         end.

(** A date past the end of month [m] is a date of the month after it. *)
Lemma MakeDay_overflow y m d :
  0 <= m < 12 ->
  MakeDay y m d = MakeDay y (m + 1) (d - DaysInMonth y m).
Proof.
  intros Hm. unfold MakeDay. cbv zeta.
  by_month Hm; fold_const_12; rewrite ?Z.add_0_r;
    unfold monthStart, DaysInMonth;
    try (destruct (isLeapYear y); lia).
  rewrite DayFromYear_succ. unfold DaysInYear.
  destruct (isLeapYear y), (isLeapYear (y + 1)); lia.
Qed.

(** Twelve months on are the same month of the next year. *)
Lemma MakeDay_next_year y m d :
  MakeDay (y + 1) m d = MakeDay y (m + 12) d.
Proof.
  unfold MakeDay. cbv zeta.
  replace ((m + 12) / 12) with (m / 12 + 1) by (Z.div_mod_to_equations; lia).
  replace ((m + 12) mod 12) with (m mod 12) by (Z.div_mod_to_equations; lia).
  replace (y + 1 + m / 12) with (y + (m / 12 + 1)) by lia. reflexivity.
Qed.

(** ** Date setters applied to a getter plus an offset *)

(** [d.setDate(d.getDate() + n)] moves the local time by [n] days. *)
Lemma setDate_getDate tza t n :
  setDate tza (Some t) (num_add (getDate tza (Some t)) n)
  = TimeClip (UTC tza (Spec.dayStep (LocalTime tza t) n)).
Proof.
  unfold setDate, getDate, num_add. cbv zeta.
  rewrite MakeDay_fields. do 2 f_equal.
  pose proof (MakeDate_Day (LocalTime tza t)) as H.
  unfold MakeDate, Spec.dayStep in *. lia.
Qed.

(** Where the offset of the zone never changes, a step of [n] days is [n]
    times 24 hours. *)
Lemma dayStep_fixedZone offset t n :
  UTC (fixedZone offset) (Spec.dayStep (LocalTime (fixedZone offset) t) n)
  = t + n * msPerDay.
Proof. unfold UTC, LocalTime, Spec.dayStep, fixedZone. cbn. lia. Qed.

(** A step of [n] days keeps the time of day and moves the day by [n]. *)
Lemma dayStep_day L n :
  Day (Spec.dayStep L n) = Day L + n
  /\ TimeWithinDay (Spec.dayStep L n) = TimeWithinDay L.
Proof.
  unfold Spec.dayStep, Day, TimeWithinDay, msPerDay.
  Z.div_mod_to_equations. lia.
Qed.

(** [d.setMonth(d.getMonth() + k)] *)
Lemma setMonth_getMonth tza t k :
  setMonth tza (Some t) (num_add (getMonth tza (Some t)) k)
  = TimeClip (UTC tza (Spec.monthStep (LocalTime tza t) k)).
Proof.
  unfold setMonth, getMonth, num_add, Spec.monthStep. cbv zeta. reflexivity.
Qed.

(** [d.setFullYear(d.getFullYear() + 1)] is a step of twelve months. *)
Lemma setFullYear_getFullYear tza t :
  setFullYear tza (Some t) (num_add (getFullYear tza (Some t)) 1)
  = TimeClip (UTC tza (Spec.monthStep (LocalTime tza t) 12)).
Proof.
  unfold setFullYear, getFullYear, num_add, Spec.monthStep. cbv zeta.
  rewrite MakeDay_next_year. reflexivity.
Qed.

(** ** Where a step of [k] months lands *)

Lemma targetMonth_range L k : 0 <= Spec.targetMonth L k < 12.
Proof. unfold Spec.targetMonth. apply Z.mod_pos_bound. lia. Qed.

Lemma monthStep_time L k :
  TimeWithinDay (Spec.monthStep L k) = TimeWithinDay L.
Proof.
  unfold Spec.monthStep. apply Day_MakeDate, TimeWithinDay_range.
Qed.

(** The target month has the day: same day of the month, [k] months on. *)
Lemma monthStep_fits L k :
  DateFromTime L <= DaysInMonth (Spec.targetYear L k) (Spec.targetMonth L k) ->
  fields (Spec.monthStep L k)
  = (Spec.targetYear L k, Spec.targetMonth L k, DateFromTime L).
Proof.
  intros Hfit. unfold Spec.monthStep. rewrite MakeDay_month_norm.
  apply fields_MakeDay.
  - apply targetMonth_range.
  - pose proof (DateFromTime_range L). split; [lia | exact Hfit].
  - apply TimeWithinDay_range.
Qed.

(** The target month is too short: the excess days run into the month
    after it. *)
Lemma monthStep_overflow L k :
  DaysInMonth (Spec.targetYear L k) (Spec.targetMonth L k) < DateFromTime L ->
  fields (Spec.monthStep L k)
  = (Spec.targetYear L k + (Spec.targetMonth L k + 1) / 12,
     (Spec.targetMonth L k + 1) mod 12,
     DateFromTime L - DaysInMonth (Spec.targetYear L k) (Spec.targetMonth L k)).
Proof.
  intros Hover. unfold Spec.monthStep. rewrite MakeDay_month_norm.
  fold (Spec.targetYear L k) (Spec.targetMonth L k).
  rewrite MakeDay_overflow by apply targetMonth_range.
  rewrite MakeDay_month_norm.
  apply fields_MakeDay.
  - apply Z.mod_pos_bound. lia.
  - pose proof (DateFromTime_range L) as Hd.
    pose proof (DaysInMonth_bounds (YearFromTime L) (MonthFromTime L)).
    pose proof (DaysInMonth_bounds (Spec.targetYear L k) (Spec.targetMonth L k)).
    pose proof (DaysInMonth_bounds
                  (Spec.targetYear L k + (Spec.targetMonth L k + 1) / 12)
                  ((Spec.targetMonth L k + 1) mod 12)).
    lia.
  - apply TimeWithinDay_range.
Qed.

(** The clamped step of the specification lands in the target month. *)
Lemma clampedMonthStep_fields L k :
  fields (Spec.clampedMonthStep L k)
  = (Spec.targetYear L k, Spec.targetMonth L k,
     Z.min (DateFromTime L)
           (DaysInMonth (Spec.targetYear L k) (Spec.targetMonth L k))).
Proof.
  unfold Spec.clampedMonthStep. cbv zeta. apply fields_MakeDay.
  - apply targetMonth_range.
  - pose proof (DateFromTime_range L).
    pose proof (DaysInMonth_bounds (Spec.targetYear L k) (Spec.targetMonth L k)).
    lia.
  - apply TimeWithinDay_range.
Qed.

(** Where the target month has the day, the step of the code is the
    clamped step. *)
Lemma monthStep_clamped L k :
  DateFromTime L <= DaysInMonth (Spec.targetYear L k) (Spec.targetMonth L k) ->
  Spec.monthStep L k = Spec.clampedMonthStep L k.
Proof.
  intros Hfit. unfold Spec.monthStep, Spec.clampedMonthStep. cbv zeta.
  rewrite Z.min_l by exact Hfit. rewrite MakeDay_month_norm. reflexivity.
Qed.


(** ** C1: the next billing date *)

Ltac eval_streqb :=
  repeat match goal with
         | |- context [String.eqb ?a ?b] =>
             let v := eval vm_compute in (String.eqb a b) in
             lazymatch v with
             | true => change (String.eqb a b) with true
             | false => change (String.eqb a b) with false
             end
         end.

Ltac open_date_utils :=
  unfold DateUtils.calculateNextBillingDate, Examples.cycle,
    DateUtils.addDays, DateUtils.addMonths, DateUtils.addYears;
  cbn [BillingCycle.type BillingCycle.customDays];
  eval_streqb; cbv iota zeta.

Lemma dateutils_daily tza t cd :
  DateUtils.calculateNextBillingDate tza (Some t) (Examples.cycle "daily" cd)
  = TimeClip (UTC tza (Spec.dayStep (LocalTime tza t) 1)).
Proof. open_date_utils. apply setDate_getDate. Qed.

Lemma dateutils_weekly tza t cd :
  DateUtils.calculateNextBillingDate tza (Some t) (Examples.cycle "weekly" cd)
  = TimeClip (UTC tza (Spec.dayStep (LocalTime tza t) 7)).
Proof. open_date_utils. apply setDate_getDate. Qed.

Lemma dateutils_custom tza t cd :
  DateUtils.calculateNextBillingDate tza (Some t) (Examples.cycle "custom" cd)
  = TimeClip (UTC tza (Spec.dayStep (LocalTime tza t) (or_int cd 30))).
Proof. open_date_utils. apply setDate_getDate. Qed.

Lemma dateutils_monthly tza t cd :
  DateUtils.calculateNextBillingDate tza (Some t) (Examples.cycle "monthly" cd)
  = TimeClip (UTC tza (Spec.monthStep (LocalTime tza t) 1)).
Proof. open_date_utils. apply setMonth_getMonth. Qed.

Lemma dateutils_quarterly tza t cd :
  DateUtils.calculateNextBillingDate tza (Some t) (Examples.cycle "quarterly" cd)
  = TimeClip (UTC tza (Spec.monthStep (LocalTime tza t) 3)).
Proof. open_date_utils. apply setMonth_getMonth. Qed.

Lemma dateutils_yearly tza t cd :
  DateUtils.calculateNextBillingDate tza (Some t) (Examples.cycle "yearly" cd)
  = TimeClip (UTC tza (Spec.monthStep (LocalTime tza t) 12)).
Proof. open_date_utils. apply setFullYear_getFullYear. Qed.

(** On the six types, with a usable [customDays] for custom, the method of
    Subscription returns the ISO string of the date that the function of
    date-utils.js returns. *)
Lemma method_agrees_with_date_utils tza (s : Subscription.t) :
  In (BillingCycle.type (Subscription.billingCycle s)) Subscription.cycleTypes ->
  (BillingCycle.type (Subscription.billingCycle s) = "custom"%string ->
   exists n, BillingCycle.customDays (Subscription.billingCycle s) = Some n
             /\ n <> 0) ->
  Subscription.calculateNextBillingDate tza s
  = toISOString
      (DateUtils.calculateNextBillingDate tza
         (newDate (Subscription.nextBillingDate s)) (Subscription.billingCycle s)).
Proof.
  intros Hin Hcustom.
  unfold Subscription.calculateNextBillingDate,
    DateUtils.calculateNextBillingDate,
    DateUtils.addDays, DateUtils.addMonths, DateUtils.addYears.
  cbv zeta.
  destruct (Subscription.billingCycle s) as [ty cd].
  cbn [BillingCycle.type BillingCycle.customDays] in *.
  unfold Subscription.cycleTypes in Hin.
  destruct Hin as [<- | [<- | [<- | [<- | [<- | [<- | []]]]]]];
    eval_streqb; cbv iota; try reflexivity.
  destruct (Hcustom eq_refl) as [n [-> Hn]].
  unfold or_int, truthy_int.
  destruct (Z.eqb_spec n 0) as [|_]; [contradiction|]. reflexivity.
Qed.

(** C1 (as amended).  For every valid time value [t] and every zone, the
    function of date-utils.js returns, clipped to the range of Date, the
    instant of the local time that is: 1 day on for daily, 7 days on for
    weekly, [customDays] days on for custom (30 days when [customDays] is
    unset or 0), at the same local time of day ([t] plus that many days of 24
    hours where the offset of the zone does not change); and 1, 3 and 12
    calendar months on for monthly, quarterly and yearly.  A step of months
    keeps the time of day; it keeps the day of the month when the target
    month has that day, and otherwise carries the days in excess into the
    month after the target month (it does not clamp).  The method of
    Subscription returns the ISO string of the same date on the six types,
    given a non-zero [customDays] for custom. *)
Theorem C1_next_billing_date (tza : zone) (t : Z) (cd : option Z) :
  (DateUtils.calculateNextBillingDate tza (Some t) (Examples.cycle "daily" cd)
     = TimeClip (UTC tza (Spec.dayStep (LocalTime tza t) 1))
   /\ DateUtils.calculateNextBillingDate tza (Some t) (Examples.cycle "weekly" cd)
     = TimeClip (UTC tza (Spec.dayStep (LocalTime tza t) 7))
   /\ (forall n, n <> 0 ->
       DateUtils.calculateNextBillingDate tza (Some t)
         (Examples.cycle "custom" (Some n))
       = TimeClip (UTC tza (Spec.dayStep (LocalTime tza t) n)))
   /\ DateUtils.calculateNextBillingDate tza (Some t)
        (Examples.cycle "custom" None)
     = TimeClip (UTC tza (Spec.dayStep (LocalTime tza t) 30))
   /\ DateUtils.calculateNextBillingDate tza (Some t)
        (Examples.cycle "custom" (Some 0))
     = TimeClip (UTC tza (Spec.dayStep (LocalTime tza t) 30)))
  /\ (forall L n,
        Day (Spec.dayStep L n) = Day L + n
        /\ TimeWithinDay (Spec.dayStep L n) = TimeWithinDay L)
  /\ (forall offset n,
        UTC (fixedZone offset)
          (Spec.dayStep (LocalTime (fixedZone offset) t) n)
        = t + n * msPerDay)
  /\ (DateUtils.calculateNextBillingDate tza (Some t) (Examples.cycle "monthly" cd)
        = TimeClip (UTC tza (Spec.monthStep (LocalTime tza t) 1))
      /\ DateUtils.calculateNextBillingDate tza (Some t)
           (Examples.cycle "quarterly" cd)
        = TimeClip (UTC tza (Spec.monthStep (LocalTime tza t) 3))
      /\ DateUtils.calculateNextBillingDate tza (Some t) (Examples.cycle "yearly" cd)
        = TimeClip (UTC tza (Spec.monthStep (LocalTime tza t) 12)))
  /\ (forall L k,
        TimeWithinDay (Spec.monthStep L k) = TimeWithinDay L
        /\ (DateFromTime L
              <= DaysInMonth (Spec.targetYear L k) (Spec.targetMonth L k) ->
            fields (Spec.monthStep L k)
            = (Spec.targetYear L k, Spec.targetMonth L k, DateFromTime L))
        /\ (DaysInMonth (Spec.targetYear L k) (Spec.targetMonth L k)
              < DateFromTime L ->
            fields (Spec.monthStep L k)
            = (Spec.targetYear L k + (Spec.targetMonth L k + 1) / 12,
               (Spec.targetMonth L k + 1) mod 12,
               DateFromTime L
               - DaysInMonth (Spec.targetYear L k) (Spec.targetMonth L k))))
  /\ (forall s : Subscription.t,
        In (BillingCycle.type (Subscription.billingCycle s))
           Subscription.cycleTypes ->
        (BillingCycle.type (Subscription.billingCycle s) = "custom"%string ->
         exists n, BillingCycle.customDays (Subscription.billingCycle s) = Some n
                   /\ n <> 0) ->
        Subscription.calculateNextBillingDate tza s
        = toISOString
            (DateUtils.calculateNextBillingDate tza
               (newDate (Subscription.nextBillingDate s))
               (Subscription.billingCycle s))).
Proof.
  split; [|split; [|split; [|split; [|split]]]].
  - split; [exact (dateutils_daily tza t cd)|].
    split; [exact (dateutils_weekly tza t cd)|].
    split.
    + intros n Hn. rewrite dateutils_custom. unfold or_int, truthy_int.
      destruct (Z.eqb_spec n 0) as [|_]; [contradiction | reflexivity].
    + exact (conj (dateutils_custom tza t None)
               (dateutils_custom tza t (Some 0))).
  - exact dayStep_day.
  - intros offset n. apply dayStep_fixedZone.
  - exact (conj (dateutils_monthly tza t cd)
             (conj (dateutils_quarterly tza t cd) (dateutils_yearly tza t cd))).
  - intros L k.
    exact (conj (monthStep_time L k)
             (conj (monthStep_fits L k) (monthStep_overflow L k))).
  - intros s. apply method_agrees_with_date_utils.
Qed.

(** The amended rule at work.  One month after 2024-01-31 is 2024-03-02, the
    two days that February 2024 lacks carried into March.  In New York, one
    day after 2024-03-09T17:00Z (noon) is noon of 10 March, which is 23
    hours later, 2024-03-10T16:00Z; in UTC it is 24 hours later. *)
Lemma C1_next_billing_date_witness :
  fields (Spec.monthStep Examples.jan31_2024 1) = (2024, 2, 2)
  /\ DateUtils.calculateNextBillingDate Examples.newYork
       (Some Examples.mar09_2024_17h) (Examples.cycle "daily" None)
     = Some 1710086400000
  /\ DateUtils.calculateNextBillingDate Examples.utc
       (Some Examples.mar09_2024_17h) (Examples.cycle "custom" (Some 1))
     = Some 1710090000000.
Proof.
  split; [ | split].
  - pose proof (C1_next_billing_date Examples.utc 0 None) as H.
    destruct H as (_ & _ & _ & _ & H & _).
    destruct (H Examples.jan31_2024 1) as (_ & _ & Hover).
    apply Hover. vm_compute. reflexivity.
  - pose proof (C1_next_billing_date Examples.newYork
                  Examples.mar09_2024_17h None) as H.
    destruct H as ((H & _) & _). etransitivity; [exact H|].
    vm_compute. reflexivity.
  - pose proof (C1_next_billing_date Examples.utc
                  Examples.mar09_2024_17h None) as H.
    destruct H as ((_ & _ & H & _) & _).
    etransitivity; [apply (H 1); discriminate|].
    vm_compute. reflexivity.
Defined.

(** C1 as stated fails: from 2024-01-31 the monthly step of the code is
    2024-03-02, in date-utils.js and in the method alike, in UTC as in New
    York, where the clamped rule of the specification gives 2024-02-29. *)
Lemma C1_monthly_is_not_clamped :
  DateUtils.calculateNextBillingDate Examples.utc (Some Examples.jan31_2024)
    (Examples.cycle "monthly" None) = Some Examples.mar02_2024
  /\ Subscription.calculateNextBillingDate Examples.utc
       (Examples.subscription (Examples.cycle "monthly" None) [])
     = Ok (TsText (Some Examples.mar02_2024))
  /\ Spec.nextBillingDate Examples.utc Examples.jan31_2024
       (Examples.cycle "monthly" None)
     = Examples.feb29_2024
  /\ fields Examples.jan31_2024 = (2024, 0, 31)
  /\ fields Examples.mar02_2024 = (2024, 2, 2)
  /\ fields Examples.feb29_2024 = (2024, 1, 29)
  /\ DateUtils.calculateNextBillingDate Examples.utc (Some Examples.jan31_2024)
       (Examples.cycle "monthly" None)
     <> Some (Spec.nextBillingDate Examples.utc Examples.jan31_2024
                (Examples.cycle "monthly" None))
  /\ DateUtils.calculateNextBillingDate Examples.newYork
       (Some (Examples.jan31_2024 + 18000000)) (Examples.cycle "monthly" None)
     = Some (Examples.mar02_2024 + 18000000)
  /\ Spec.nextBillingDate Examples.newYork (Examples.jan31_2024 + 18000000)
       (Examples.cycle "monthly" None)
     = Examples.feb29_2024 + 18000000.
Proof.
  split; [vm_compute; reflexivity|].
  split; [vm_compute; reflexivity|].
  split; [vm_compute; reflexivity|].
  split; [vm_compute; reflexivity|].
  split; [vm_compute; reflexivity|].
  split; [vm_compute; reflexivity|].
  split; [vm_compute; discriminate|].
  split; vm_compute; reflexivity.
Qed.

(** ** C5 and C2: a type outside the six, and recording a payment *)

Lemma not_in_cycleTypes ty :
  ~ In ty Subscription.cycleTypes ->
  (ty =? "daily")%string = false /\ (ty =? "weekly")%string = false
  /\ (ty =? "monthly")%string = false /\ (ty =? "quarterly")%string = false
  /\ (ty =? "yearly")%string = false /\ (ty =? "custom")%string = false.
Proof.
  intros Hn. unfold Subscription.cycleTypes in Hn. cbn [In] in Hn.
  repeat match goal with
         | |- _ /\ _ => split
         | |- (_ =? _)%string = false =>
             apply String.eqb_neq; intros ->; apply Hn; tauto
         end.
Qed.

(** The function of date-utils.js falls back to the monthly rule on a type
    outside the six, whatever the date, and never throws (it returns a
    Date, Invalid when the date given is). *)
Lemma dateutils_unknown_type_is_monthly tza d c :
  ~ In (BillingCycle.type c) Subscription.cycleTypes ->
  DateUtils.calculateNextBillingDate tza d c = DateUtils.addMonths tza d 1.
Proof.
  intros Hn. apply not_in_cycleTypes in Hn.
  destruct Hn as (H1 & H2 & H3 & H4 & H5 & H6).
  unfold DateUtils.calculateNextBillingDate. cbv zeta.
  rewrite H1, H2, H3, H4, H5, H6. reflexivity.
Qed.

(** The method of Subscription leaves the date as it is on such a type. *)
Lemma method_unknown_type_keeps_date tza (s : Subscription.t) :
  ~ In (BillingCycle.type (Subscription.billingCycle s)) Subscription.cycleTypes ->
  Subscription.calculateNextBillingDate tza s
  = toISOString (newDate (Subscription.nextBillingDate s)).
Proof.
  intros Hn. apply not_in_cycleTypes in Hn.
  destruct Hn as (H1 & H2 & H3 & H4 & H5 & H6).
  unfold Subscription.calculateNextBillingDate. cbv zeta.
  rewrite H1, H2, H3, H4, H5, H6. reflexivity.
Qed.

(** C5 (the code departs from it).  On a billing-cycle type outside the six,
    the function of date-utils.js returns the date one calendar month on,
    as the claim says; the method [calculateNextBillingDate] of Subscription,
    which [recordPayment] uses, returns the stored date unchanged. *)
Theorem C5_unknown_type (tza : zone) (s : Subscription.t) (t : Z) :
  ~ In (BillingCycle.type (Subscription.billingCycle s)) Subscription.cycleTypes ->
  Subscription.nextBillingDate s = TsText (Some t) ->
  DateUtils.calculateNextBillingDate tza (Some t) (Subscription.billingCycle s)
    = TimeClip (UTC tza (Spec.monthStep (LocalTime tza t) 1))
  /\ Subscription.calculateNextBillingDate tza s = Ok (TsText (Some t)).
Proof.
  intros Hn Ht. split.
  - rewrite dateutils_unknown_type_is_monthly by exact Hn.
    apply setMonth_getMonth.
  - rewrite method_unknown_type_keeps_date by exact Hn.
    rewrite Ht. reflexivity.
Qed.

(** At a subscription billed "biweekly" (a type a stored or imported record
    can carry) next due 2024-01-31: date-utils.js gives 2024-03-02, the
    method gives 2024-01-31 again. *)
Lemma C5_unknown_type_witness :
  DateUtils.calculateNextBillingDate Examples.utc (Some Examples.jan31_2024)
    (Examples.cycle "biweekly" None)
    = Some Examples.mar02_2024
  /\ Subscription.calculateNextBillingDate Examples.utc
       (Examples.subscription (Examples.cycle "biweekly" None) [])
     = Ok (TsText (Some Examples.jan31_2024)).
Proof.
  destruct (C5_unknown_type Examples.utc
              (Examples.subscription (Examples.cycle "biweekly" None) [])
              Examples.jan31_2024) as [H1 H2].
  - vm_compute. intuition discriminate.
  - reflexivity.
  - split; [ | exact H2].
    etransitivity; [exact H1 | vm_compute; reflexivity].
Defined.

(** The entry that [recordPayment] pushes. *)
Lemma recordPayment_history tza now (s : Subscription.t) :
  Subscription.history (snd (Subscription.recordPayment tza now s))
  = Subscription.history s
    ++ [ {| Payment.date := Subscription.nextBillingDate s;
            Payment.amount := Subscription.cost s;
            Payment.currency := Subscription.currency s |} ].
Proof.
  unfold Subscription.recordPayment. cbv zeta.
  destruct (Subscription.calculateNextBillingDate tza _); reflexivity.
Qed.

(** The next date does not depend on the history just pushed. *)
Lemma method_ignores_history tza (s : Subscription.t) h :
  Subscription.calculateNextBillingDate tza (Subscription.set_history s h)
  = Subscription.calculateNextBillingDate tza s.
Proof. reflexivity. Qed.

(** When the next date is computed, the call returns with the date stored
    and the modification time set; every other field is as it was. *)
Lemma recordPayment_returns tza now (s : Subscription.t) next :
  Subscription.calculateNextBillingDate tza s = Ok next ->
  Subscription.recordPayment tza now s
  = (Ok tt,
     {| Subscription.id := Subscription.id s;
        Subscription.name := Subscription.name s;
        Subscription.cost := Subscription.cost s;
        Subscription.currency := Subscription.currency s;
        Subscription.billingCycle := Subscription.billingCycle s;
        Subscription.nextBillingDate := next;
        Subscription.category := Subscription.category s;
        Subscription.notes := Subscription.notes s;
        Subscription.paymentMethod := Subscription.paymentMethod s;
        Subscription.isActive := Subscription.isActive s;
        Subscription.reminderDays := Subscription.reminderDays s;
        Subscription.createdAt := Subscription.createdAt s;
        Subscription.updatedAt := isoNow now;
        Subscription.history :=
          Subscription.history s
          ++ [ {| Payment.date := Subscription.nextBillingDate s;
                  Payment.amount := Subscription.cost s;
                  Payment.currency := Subscription.currency s |} ] |}).
Proof.
  intros Hnext. unfold Subscription.recordPayment. cbv zeta.
  rewrite method_ignores_history, Hnext. reflexivity.
Qed.

(** C2 (the code departs from it).  On a subscription whose billing-cycle
    type is outside the six, [recordPayment] returns normally, appends the
    one entry dated with the prior next billing date and sets the
    modification time, but leaves the next billing date where it was: no
    cycle step is taken, where the rule of [nextBillingDate] for such a type
    (date-utils.js) is one calendar month. *)
Theorem C2_recordPayment_unknown_type
    (tza : zone) (now : Z) (s : Subscription.t) (t : Z) :
  ~ In (BillingCycle.type (Subscription.billingCycle s)) Subscription.cycleTypes ->
  Subscription.nextBillingDate s = TsText (Some t) ->
  fst (Subscription.recordPayment tza now s) = Ok tt
  /\ Subscription.history (snd (Subscription.recordPayment tza now s))
     = Subscription.history s
       ++ [ {| Payment.date := TsText (Some t);
               Payment.amount := Subscription.cost s;
               Payment.currency := Subscription.currency s |} ]
  /\ Subscription.nextBillingDate (snd (Subscription.recordPayment tza now s))
     = TsText (Some t)
  /\ Subscription.updatedAt (snd (Subscription.recordPayment tza now s))
     = isoNow now
  /\ DateUtils.calculateNextBillingDate tza (Some t) (Subscription.billingCycle s)
     = TimeClip (UTC tza (Spec.monthStep (LocalTime tza t) 1)).
Proof.
  intros Hn Ht.
  assert (Hmethod : Subscription.calculateNextBillingDate tza s
                    = Ok (TsText (Some t))).
  { rewrite method_unknown_type_keeps_date by exact Hn. rewrite Ht. reflexivity. }
  rewrite (recordPayment_returns tza now s _ Hmethod).
  cbn [fst snd Subscription.history Subscription.nextBillingDate
       Subscription.updatedAt].
  rewrite Ht.
  split; [reflexivity|]. split; [reflexivity|]. split; [reflexivity|].
  split; [reflexivity|].
  rewrite dateutils_unknown_type_is_monthly by exact Hn.
  apply setMonth_getMonth.
Qed.

(** At the "biweekly" subscription next due 2024-01-31: the payment is
    recorded and the next billing date is still 2024-01-31. *)
Lemma C2_recordPayment_unknown_type_witness :
  Subscription.nextBillingDate
    (snd (Subscription.recordPayment Examples.utc 1706700000000
            (Examples.subscription (Examples.cycle "biweekly" None) [])))
  = TsText (Some Examples.jan31_2024).
Proof.
  apply (C2_recordPayment_unknown_type Examples.utc 1706700000000
           (Examples.subscription (Examples.cycle "biweekly" None) [])
           Examples.jan31_2024).
  - vm_compute. intuition discriminate.
  - reflexivity.
Defined.

(** ** C7 and C4: percentage used and alert level *)

(** Multiplication of Numbers is commutative (IEEE-754). *)
Lemma float_mul_comm (x y : float) : (x * y)%float = (y * x)%float.
Proof.
  rewrite <- (SF2Prim_Prim2SF (x * y)), <- (SF2Prim_Prim2SF (y * x)).
  rewrite !FloatAxioms.mul_spec. f_equal.
  destruct (Prim2SF x) as [sx|sx| |sx mx ex], (Prim2SF y) as [sy|sy| |sy my ey];
    cbn; rewrite ?(xorb_comm sx sy); try reflexivity.
  rewrite (Pos.mul_comm mx my), (Z.add_comm ex ey). reflexivity.
Qed.

(** C7.  [calculatePercentageUsed] returns 0 when the amount of the budget
    equals 0 (either zero; the division is not performed), and
    [(spent / amount) * 100] otherwise, whatever that value is: 12 spent of
    5 is 240, not 100. *)
Theorem C7_percentage_used (b : Budget.t) (spent : float) :
  ((Budget.amount b =? 0)%float = true ->
   Budget.calculatePercentageUsed b spent = 0%float)
  /\ ((Budget.amount b =? 0)%float = false ->
      Budget.calculatePercentageUsed b spent
      = (spent / Budget.amount b * 100)%float)
  /\ Budget.calculatePercentageUsed (Examples.january 5 80) 12 = 240%float.
Proof.
  unfold Budget.calculatePercentageUsed.
  split; [intros ->; reflexivity|].
  split; [intros ->; reflexivity|].
  vm_compute. reflexivity.
Qed.

(** [percentageUsed(10, 0) = 0] and [percentageUsed(50, 100) = 50]. *)
Lemma C7_percentage_used_witness :
  Budget.calculatePercentageUsed (Examples.january 0 80) 10 = 0%float
  /\ Budget.calculatePercentageUsed (Examples.january 100 80) 50 = 50%float.
Proof.
  split.
  - apply (proj1 (C7_percentage_used (Examples.january 0 80) 10)).
    vm_compute. reflexivity.
  - rewrite (proj1 (proj2 (C7_percentage_used (Examples.january 100 80) 50)));
      vm_compute; reflexivity.
Defined.

(** The branches of [getAlertLevel], on the percentage used [p]. *)
Lemma getAlertLevel_cases (b : Budget.t) (spent : float) :
  Budget.getAlertLevel b spent
  = if (100 <=? Budget.calculatePercentageUsed b spent)%float then "danger"%string
    else if (Budget.alertThreshold b
             <=? Budget.calculatePercentageUsed b spent)%float then "warning"%string
    else if (0.75 * Budget.alertThreshold b
             <=? Budget.calculatePercentageUsed b spent)%float then "info"%string
    else "success"%string.
Proof.
  unfold Budget.getAlertLevel. cbv zeta.
  rewrite (float_mul_comm (Budget.alertThreshold b) 0.75). reflexivity.
Qed.

(** C4.  With [p] the percentage used: 'danger' when [p >= 100]; otherwise
    'warning' when [p >= alertThreshold]; otherwise 'info' when
    [p >= 0.75 * alertThreshold]; otherwise 'success'.  The tests are made
    in this order with [>=], so a tie takes the higher level. *)
Theorem C4_alert_level (b : Budget.t) (spent : float) :
  let p := Budget.calculatePercentageUsed b spent in
  let threshold := Budget.alertThreshold b in
  ((100 <=? p)%float = true -> Budget.getAlertLevel b spent = "danger"%string)
  /\ ((100 <=? p)%float = false -> (threshold <=? p)%float = true ->
      Budget.getAlertLevel b spent = "warning"%string)
  /\ ((100 <=? p)%float = false -> (threshold <=? p)%float = false ->
      (0.75 * threshold <=? p)%float = true ->
      Budget.getAlertLevel b spent = "info"%string)
  /\ ((100 <=? p)%float = false -> (threshold <=? p)%float = false ->
      (0.75 * threshold <=? p)%float = false ->
      Budget.getAlertLevel b spent = "success"%string).
Proof.
  cbv zeta. rewrite getAlertLevel_cases.
  split; [intros ->; reflexivity|].
  split; [intros -> ->; reflexivity|].
  split; intros -> -> ->; reflexivity.
Qed.

(** A budget of 100 with threshold 80: 100 spent is 'danger', 85 and the
    tie 80 are 'warning', 65 and the tie 60 are 'info', 50 is 'success'. *)
Lemma C4_alert_level_witness :
  Budget.getAlertLevel (Examples.january 100 80) 100 = "danger"%string
  /\ Budget.getAlertLevel (Examples.january 100 80) 85 = "warning"%string
  /\ Budget.getAlertLevel (Examples.january 100 80) 80 = "warning"%string
  /\ Budget.getAlertLevel (Examples.january 100 80) 65 = "info"%string
  /\ Budget.getAlertLevel (Examples.january 100 80) 60 = "info"%string
  /\ Budget.getAlertLevel (Examples.january 100 80) 50 = "success"%string.
Proof.
  split.
  { apply (proj1 (C4_alert_level (Examples.january 100 80) 100)).
    vm_compute. reflexivity. }
  split.
  { apply (proj1 (proj2 (C4_alert_level (Examples.january 100 80) 85)));
      vm_compute; reflexivity. }
  split.
  { apply (proj1 (proj2 (C4_alert_level (Examples.january 100 80) 80)));
      vm_compute; reflexivity. }
  split.
  { apply (proj1 (proj2 (proj2 (C4_alert_level (Examples.january 100 80) 65))));
      vm_compute; reflexivity. }
  split.
  { apply (proj1 (proj2 (proj2 (C4_alert_level (Examples.january 100 80) 60))));
      vm_compute; reflexivity. }
  apply (proj2 (proj2 (proj2 (C4_alert_level (Examples.january 100 80) 50))));
    vm_compute; reflexivity.
Defined.

(** ** C10: the alert threshold that a Budget stores *)

(** The threshold that [new Budget(data)] stores is [data.alertThreshold || 80]. *)
Lemma new_Budget_alertThreshold tza uuid now data b :
  Budget.new tza uuid now data = Ok b ->
  Budget.alertThreshold b = or_num (Budget.Data.alertThreshold data) 80.
Proof.
  unfold Budget.new, bind.
  destruct (match Budget.Data.period data with
            | Some p => Ok p
            | None => _
            end) as [p | msg]; [ | discriminate].
  intros H. injection H as <-. reflexivity.
Qed.

(** C10.  When [data.alertThreshold] is absent or is 0 (either zero), the
    budget built has the threshold 80; and no budget built has the
    threshold 0. *)
Theorem C10_zero_threshold_defaults
    (tza : zone) (uuid : string) (now : Z) (data : Budget.Data.t) (b : Budget.t) :
  Budget.new tza uuid now data = Ok b ->
  (Budget.Data.alertThreshold data = None -> Budget.alertThreshold b = 80%float)
  /\ (forall x, Budget.Data.alertThreshold data = Some x ->
                (x =? 0)%float = true -> Budget.alertThreshold b = 80%float)
  /\ (Budget.alertThreshold b =? 0)%float = false.
Proof.
  intros Hnew. rewrite (new_Budget_alertThreshold _ _ _ _ _ Hnew).
  unfold or_num, truthy_num.
  split; [intros ->; reflexivity|].
  split.
  - intros x -> Hx. rewrite Hx. reflexivity.
  - destruct (Budget.Data.alertThreshold data) as [x|]; [ | reflexivity].
    destruct (x =? 0)%float eqn:Hx; cbn [negb andb]; [reflexivity|].
    destruct (is_nan x); cbn [negb]; [reflexivity | exact Hx].
Qed.

(** A budget built with [alertThreshold: 0] stores 80. *)
Lemma C10_zero_threshold_defaults_witness :
  Budget.new Examples.utc "fresh" 0 (Examples.januaryData 100 (Some 0%float))
  = Ok (Examples.january 100 80)
  /\ Budget.alertThreshold (Examples.january 100 80) = 80%float.
Proof.
  assert (H : Budget.new Examples.utc "fresh" 0 (Examples.januaryData 100 (Some 0%float))
              = Ok (Examples.january 100 80)) by (vm_compute; reflexivity).
  split; [exact H|].
  apply (proj1 (proj2 (C10_zero_threshold_defaults _ _ _ _ _ H)) 0%float);
    reflexivity.
Defined.

(** ** C3: spending for a budget *)

(** [isWithinRange] is the inclusive test on time values, and is false as
    soon as one of the three is not a date. *)
Lemma isWithinRange_inPeriod (budget : Budget.t) (date : timestamp) :
  DateUtils.isWithinRange date
    (Period.start (Budget.period budget)) (Period.end_ (Budget.period budget))
  = Spec.inPeriod budget date.
Proof.
  unfold DateUtils.isWithinRange, Spec.inPeriod, Spec.timeOf, newDate, date_leb.
  cbv zeta.
  destruct date as [|[d|]];
    destruct (Period.start (Budget.period budget)) as [|[s|]];
    destruct (Period.end_ (Budget.period budget)) as [|[e|]];
    try reflexivity; apply andb_false_r.
Qed.

Lemma inPeriod_inclusive (budget : Budget.t) (date : timestamp) :
  Spec.inPeriod budget date = true
  <-> exists d s e,
        date = TsText (Some d)
        /\ Period.start (Budget.period budget) = TsText (Some s)
        /\ Period.end_ (Budget.period budget) = TsText (Some e)
        /\ s <= d <= e.
Proof.
  unfold Spec.inPeriod, Spec.timeOf. split.
  - destruct date as [|[d|]]; try discriminate.
    destruct (Period.start (Budget.period budget)) as [|[s|]]; try discriminate.
    destruct (Period.end_ (Budget.period budget)) as [|[e|]]; try discriminate.
    intros H. apply andb_true_iff in H. destruct H as [H1 H2].
    exists d, s, e. repeat split; try reflexivity; lia.
  - intros (d & s & e & -> & -> & -> & H1 & H2).
    apply andb_true_iff. split; lia.
Qed.

(** The inner loop adds, to what is spent so far, the amounts of the
    payments dated within the period, in their order. *)
Lemma payments_loop (budget : Budget.t) (h : list Payment.t) (acc : float) :
  fold_left
    (fun spent payment =>
       if DateUtils.isWithinRange (Payment.date payment)
            (Period.start (Budget.period budget))
            (Period.end_ (Budget.period budget))
       then (spent + Payment.amount payment)%float
       else spent)
    h acc
  = fold_left PrimFloat.add
      (map Payment.amount
         (List.filter (fun p => Spec.inPeriod budget (Payment.date p)) h))
      acc.
Proof.
  revert acc. induction h as [|p h IH]; intros acc; [reflexivity|].
  cbn [fold_left List.filter]. rewrite isWithinRange_inPeriod.
  destruct (Spec.inPeriod budget (Payment.date p)); cbn [map fold_left];
    apply IH.
Qed.

(** The guard that skips a subscription is the negation of the filter. *)
Lemma filteredOut_passesFilter budget sub :
  BudgetService.filteredOut budget sub = negb (Spec.passesFilter budget sub).
Proof.
  unfold BudgetService.filteredOut, Spec.passesFilter, truthy_str.
  destruct (Budget.category budget) as [c|]; [ | reflexivity].
  destruct (c =? "")%string; cbn [negb andb]; [reflexivity|].
  reflexivity.
Qed.

(** The outer loop, started from any amount already spent. *)
Lemma subscriptions_loop (budget : Budget.t) (subs : list Subscription.t)
    (acc : float) :
  fold_left
    (fun spent sub =>
       if BudgetService.filteredOut budget sub then spent
       else
         let spent :=
           fold_left
             (fun spent payment =>
                if DateUtils.isWithinRange (Payment.date payment)
                     (Period.start (Budget.period budget))
                     (Period.end_ (Budget.period budget))
                then (spent + Payment.amount payment)%float
                else spent)
             (Subscription.history sub) spent in
         if Subscription.isActive sub
            && DateUtils.isWithinRange (Subscription.nextBillingDate sub)
                 (Period.start (Budget.period budget))
                 (Period.end_ (Budget.period budget))
         then (spent + Subscription.cost sub)%float
         else spent)
    subs acc
  = fold_left PrimFloat.add
      (flat_map (Spec.contributions budget)
         (List.filter (Spec.passesFilter budget) subs))
      acc.
Proof.
  revert acc. induction subs as [|sub subs IH]; intros acc; [reflexivity|].
  cbn [fold_left List.filter]. rewrite filteredOut_passesFilter.
  destruct (Spec.passesFilter budget sub); cbn [negb]; [ | apply IH].
  cbn [flat_map]. rewrite fold_left_app. rewrite IH. f_equal.
  cbv zeta. rewrite payments_loop.
  unfold Spec.contributions. rewrite fold_left_app.
  rewrite isWithinRange_inPeriod.
  destruct (Subscription.isActive sub
            && Spec.inPeriod budget (Subscription.nextBillingDate sub));
    reflexivity.
Qed.

(** C3.  [getSpendingForBudget] returns the sum, taken in order over the
    subscriptions that pass the category filter of the budget, of the
    amounts of their history payments dated within the period and then of
    their cost, once, when the subscription is active and its next billing
    date is within the period.  Within the period means start <= date <= end
    on time values, both bounds included.  A payment dated as the next
    billing date is not removed: for one active subscription with one such
    payment inside the period, the result is the payment plus the cost. *)
Theorem C3_spending_for_budget
    (budget : Budget.t) (subscriptions : list Subscription.t) :
  BudgetService.getSpendingForBudget subscriptions budget
  = Spec.spendingForBudget budget subscriptions
  /\ (forall date,
        Spec.inPeriod budget date = true
        <-> exists d s e,
              date = TsText (Some d)
              /\ Period.start (Budget.period budget) = TsText (Some s)
              /\ Period.end_ (Budget.period budget) = TsText (Some e)
              /\ s <= d <= e)
  /\ (forall (sub : Subscription.t) (p : Payment.t),
        Spec.passesFilter budget sub = true ->
        Subscription.isActive sub = true ->
        Subscription.history sub = [p] ->
        Payment.date p = Subscription.nextBillingDate sub ->
        Spec.inPeriod budget (Subscription.nextBillingDate sub) = true ->
        BudgetService.getSpendingForBudget [sub] budget
        = (0 + Payment.amount p + Subscription.cost sub)%float).
Proof.
  assert (Heq : forall subs,
             BudgetService.getSpendingForBudget subs budget
             = Spec.spendingForBudget budget subs).
  { intros subs. unfold BudgetService.getSpendingForBudget,
      Spec.spendingForBudget, Spec.sum. cbv zeta. apply subscriptions_loop. }
  split; [apply Heq|].
  split; [exact (inPeriod_inclusive budget)|].
  intros sub p Hpass Hactive Hh Hdate Hin.
  rewrite Heq. unfold Spec.spendingForBudget, Spec.sum.
  cbn [List.filter]. rewrite Hpass. cbn [flat_map].
  unfold Spec.contributions. rewrite Hh, Hactive. cbn [List.filter].
  rewrite Hdate, Hin. reflexivity.
Qed.

(** Against a budget for January 2024 (2024-01-01T00:00Z to
    2024-02-01T00:00Z).  An active subscription of cost 10 due 2024-01-31
    with a payment of 10 recorded at that date: 20.  An active subscription
    of cost 16 due at the very end of the period, with payments of 1 at the
    very start, 2 at the very end, 4 one millisecond after the end and 8 one
    millisecond before the start: 1 + 2 + 16 = 19.  The same subscription
    due one millisecond after the end: 1 + 2 = 3. *)
Lemma C3_spending_for_budget_witness :
  BudgetService.getSpendingForBudget
    [Examples.subscription (Examples.cycle "monthly" None)
       [Examples.payment Examples.jan31_2024 10]]
    (Examples.january 100 80)
  = 20%float
  /\ BudgetService.getSpendingForBudget
       [Examples.dueOn Examples.feb01_2024 16
          [Examples.payment Examples.jan01_2024 1;
           Examples.payment Examples.feb01_2024 2;
           Examples.payment (Examples.feb01_2024 + 1) 4;
           Examples.payment (Examples.jan01_2024 - 1) 8]]
       (Examples.january 100 80)
     = 19%float
  /\ BudgetService.getSpendingForBudget
       [Examples.dueOn (Examples.feb01_2024 + 1) 16
          [Examples.payment Examples.jan01_2024 1;
           Examples.payment Examples.feb01_2024 2;
           Examples.payment (Examples.feb01_2024 + 1) 4;
           Examples.payment (Examples.jan01_2024 - 1) 8]]
       (Examples.january 100 80)
     = 3%float.
Proof.
  split; [ | split].
  - rewrite (proj2 (proj2 (C3_spending_for_budget (Examples.january 100 80) []))
               (Examples.subscription (Examples.cycle "monthly" None)
                  [Examples.payment Examples.jan31_2024 10])
               (Examples.payment Examples.jan31_2024 10));
      vm_compute; reflexivity.
  - rewrite (proj1 (C3_spending_for_budget (Examples.january 100 80) _)).
    vm_compute. reflexivity.
  - rewrite (proj1 (C3_spending_for_budget (Examples.january 100 80) _)).
    vm_compute. reflexivity.
Defined.

(** ** C6: the monthly equivalent of a cost *)

(** The reducer of [getTotalMonthlyCost] adds the monthly cost of each
    active subscription. *)
Lemma getTotalMonthlyCost_sum (subs : list Subscription.t) :
  SubscriptionService.getTotalMonthlyCost subs
  = Spec.sum (map SubscriptionService.getSubscriptionMonthlyCost
                (List.filter Subscription.isActive subs)).
Proof.
  unfold SubscriptionService.getTotalMonthlyCost, Spec.sum,
    SubscriptionService.getActive.
  generalize 0%float.
  induction (List.filter (fun sub => Subscription.isActive sub) subs)
    as [|s l IH]; intros acc; [reflexivity|].
  cbn [map fold_left]. rewrite <- IH. reflexivity.
Qed.

(** C6.  The monthly equivalent is cost*30 for daily, cost*4 for weekly,
    cost for monthly, cost/3 for quarterly, cost/12 for yearly, and
    (cost/customDays)*30 for custom, [customDays] being the non-zero number
    of days that a custom cycle carries; the constants are 30 days and 4
    weeks per month.  In particular a yearly subscription of cost 120 yields
    10 and a custom one of 10 days and cost 10 yields 30.  The total adds,
    from 0 and in order, the monthly equivalents of the subscriptions that
    are active. *)
Theorem C6_monthly_equivalent (s : Subscription.t) :
  let cost := Subscription.cost s in
  let type := BillingCycle.type (Subscription.billingCycle s) in
  let customDays := BillingCycle.customDays (Subscription.billingCycle s) in
  (type = "daily"%string ->
   SubscriptionService.getSubscriptionMonthlyCost s = (cost * 30)%float)
  /\ (type = "weekly"%string ->
      SubscriptionService.getSubscriptionMonthlyCost s = (cost * 4)%float)
  /\ (type = "monthly"%string ->
      SubscriptionService.getSubscriptionMonthlyCost s = cost)
  /\ (type = "quarterly"%string ->
      SubscriptionService.getSubscriptionMonthlyCost s = (cost / 3)%float)
  /\ (type = "yearly"%string ->
      SubscriptionService.getSubscriptionMonthlyCost s = (cost / 12)%float)
  /\ (type = "custom"%string ->
      forall n, customDays = Some n -> n <> 0 ->
      SubscriptionService.getSubscriptionMonthlyCost s
      = (cost / num_of_int n * 30)%float)
  /\ (type = "yearly"%string -> cost = 120%float ->
      SubscriptionService.getSubscriptionMonthlyCost s = 10%float)
  /\ (type = "custom"%string -> customDays = Some 10 -> cost = 10%float ->
      SubscriptionService.getSubscriptionMonthlyCost s = 30%float)
  /\ (forall subs,
        SubscriptionService.getTotalMonthlyCost subs
        = Spec.sum (map SubscriptionService.getSubscriptionMonthlyCost
                      (List.filter Subscription.isActive subs))).
Proof.
  cbv zeta. unfold SubscriptionService.getSubscriptionMonthlyCost. cbv zeta.
  split; [intros ->; reflexivity|].
  split; [intros ->; reflexivity|].
  split; [intros ->; reflexivity|].
  split; [intros ->; reflexivity|].
  split; [intros ->; reflexivity|].
  split.
  { intros -> n -> Hn. eval_streqb. cbv iota.
    unfold or_int, truthy_int.
    destruct (Z.eqb_spec n 0) as [|_]; [contradiction | reflexivity]. }
  split; [intros -> ->; reflexivity|].
  split; [intros -> -> ->; reflexivity|].
  apply getTotalMonthlyCost_sum.
Qed.

(** The Number of an integer: exact up to 2^53, rounded to the nearest
    even beyond, of either sign. *)
Lemma num_of_int_examples :
  num_of_int 10 = 10%float
  /\ num_of_int (-3) = (-3)%float
  /\ num_of_int 0 = 0%float
  /\ num_of_int (2 ^ 53 + 1) = 9007199254740992%float
  /\ num_of_int (2 ^ 53 + 3) = 9007199254740996%float
  /\ num_of_int (2 ^ 63) = 9223372036854775808%float.
Proof. repeat split; vm_compute; reflexivity. Qed.

(** A yearly subscription of cost 120 yields 10; a custom one of 10 days and
    cost 10 yields 30, one of 45 days and cost 9 yields 6, one of 2^63 days
    and cost 2^63 yields 30; of an active subscription of cost 120 a year
    and an inactive one of cost 10 a month, the total is 10. *)
Lemma C6_monthly_equivalent_witness :
  SubscriptionService.getSubscriptionMonthlyCost
    (Examples.costing 120 (Examples.cycle "yearly" None)) = 10%float
  /\ SubscriptionService.getSubscriptionMonthlyCost
       (Examples.costing 10 (Examples.cycle "custom" (Some 10))) = 30%float
  /\ SubscriptionService.getSubscriptionMonthlyCost
       (Examples.costing 9 (Examples.cycle "custom" (Some 45))) = 6%float
  /\ SubscriptionService.getSubscriptionMonthlyCost
       (Examples.costing 9223372036854775808
          (Examples.cycle "custom" (Some (2 ^ 63)))) = 30%float
  /\ SubscriptionService.getTotalMonthlyCost
       [Examples.costing 120 (Examples.cycle "yearly" None);
        Examples.inactive (Examples.costing 10 (Examples.cycle "monthly" None))]
     = 10%float.
Proof.
  pose proof (C6_monthly_equivalent
                (Examples.costing 120 (Examples.cycle "yearly" None)))
    as (_ & _ & _ & _ & _ & _ & Hyearly & _ & Htotal).
  pose proof (C6_monthly_equivalent
                (Examples.costing 10 (Examples.cycle "custom" (Some 10))))
    as (_ & _ & _ & _ & _ & _ & _ & Hcustom & _).
  pose proof (C6_monthly_equivalent
                (Examples.costing 9 (Examples.cycle "custom" (Some 45))))
    as (_ & _ & _ & _ & _ & Hdays & _).
  split; [exact (Hyearly eq_refl eq_refl)|].
  split; [exact (Hcustom eq_refl eq_refl eq_refl)|].
  split.
  { rewrite (Hdays eq_refl 45 eq_refl); [vm_compute; reflexivity | discriminate]. }
  split.
  { pose proof (C6_monthly_equivalent
                  (Examples.costing 9223372036854775808
                     (Examples.cycle "custom" (Some (2 ^ 63)))))
      as (_ & _ & _ & _ & _ & Hlarge & _).
    rewrite (Hlarge eq_refl (2 ^ 63) eq_refl);
      [vm_compute; reflexivity | discriminate]. }
  rewrite Htotal. vm_compute. reflexivity.
Defined.

(** ** C8: a create or an update is all or nothing *)

(** *** The strings that [trim] empties *)

Ltac in_closed_list := cbv; repeat first [left; reflexivity | right].

Lemma whiteSpace_strings w :
  In w (map utf8 Spec.whiteSpaceCodePoints) ->
  exists cp, In cp Spec.whiteSpaceCodePoints /\ w = utf8 cp.
Proof.
  intros H. apply in_map_iff in H. destruct H as (cp & <- & H).
  exists cp. split; [exact H | reflexivity].
Qed.

Lemma trimStart_whiteSpace cp s :
  In cp Spec.whiteSpaceCodePoints ->
  trimStart (utf8 cp ++ s)%string = trimStart s
  /\ (String.length s < String.length (utf8 cp ++ s)%string)%nat.
Proof.
  intros H. unfold Spec.whiteSpaceCodePoints in H. cbn [In] in H.
  repeat (destruct H as [<- | H]; [split; [reflexivity | cbn; lia] | ]).
  destruct H.
Qed.

Lemma isWhiteSpace1_utf8 c :
  isWhiteSpace1 c = true ->
  In (String c "") (map utf8 Spec.whiteSpaceCodePoints).
Proof.
  unfold isWhiteSpace1. intros H. cbn [existsb] in H.
  rewrite !orb_true_iff, !Ascii.eqb_eq in H.
  repeat (destruct H as [-> | H]; [in_closed_list | ]).
  discriminate H.
Qed.

Lemma isWhiteSpace2_utf8 c1 c2 :
  isWhiteSpace2 c1 c2 = true ->
  In (String c1 (String c2 "")) (map utf8 Spec.whiteSpaceCodePoints).
Proof.
  unfold isWhiteSpace2. rewrite andb_true_iff, !Ascii.eqb_eq.
  intros [-> ->]. in_closed_list.
Qed.

Lemma isWhiteSpace3_utf8 c1 c2 c3 :
  isWhiteSpace3 c1 c2 c3 = true ->
  In (String c1 (String c2 (String c3 ""))) (map utf8 Spec.whiteSpaceCodePoints).
Proof.
  unfold isWhiteSpace3. cbn [existsb].
  rewrite !orb_true_iff, !andb_true_iff, !orb_true_iff, !Ascii.eqb_eq.
  intros H.
  repeat match goal with
         | H : _ \/ _ |- _ => destruct H as [H | H]
         | H : _ /\ _ |- _ => destruct H as [? H]
         | H : false = true |- _ => discriminate H
         end; subst; in_closed_list.
Qed.

(** One step of [trimStart]: a code point of white space is dropped, or the
    string is returned. *)
Lemma trimStart_cases s :
  (exists cp r, In cp Spec.whiteSpaceCodePoints /\ s = (utf8 cp ++ r)%string
                /\ trimStart s = trimStart r
                /\ (String.length r < String.length s)%nat)
  \/ trimStart s = s.
Proof.
  destruct s as [|c1 r1]; [right; reflexivity|].
  cbn [trimStart].
  destruct (isWhiteSpace1 c1) eqn:H1.
  { left. apply isWhiteSpace1_utf8, whiteSpace_strings in H1.
    destruct H1 as (cp & Hin & Heq). exists cp, r1.
    rewrite <- Heq. cbn. repeat split; [exact Hin | lia]. }
  destruct r1 as [|c2 r2]; [right; reflexivity|].
  destruct (isWhiteSpace2 c1 c2) eqn:H2.
  { left. apply isWhiteSpace2_utf8, whiteSpace_strings in H2.
    destruct H2 as (cp & Hin & Heq). exists cp, r2.
    rewrite <- Heq. cbn. repeat split; [exact Hin | lia]. }
  destruct r2 as [|c3 r3]; [right; reflexivity|].
  destruct (isWhiteSpace3 c1 c2 c3) eqn:H3.
  { left. apply isWhiteSpace3_utf8, whiteSpace_strings in H3.
    destruct H3 as (cp & Hin & Heq). exists cp, r3.
    rewrite <- Heq. cbn. repeat split; [exact Hin | lia]. }
  right. reflexivity.
Qed.

Lemma trimStart_blank s : trimStart s = ""%string <-> Spec.blank s.
Proof.
  split.
  - remember (String.length s) as n eqn:Hn. revert s Hn.
    induction n as [n IH] using lt_wf_ind. intros s Hn H.
    destruct (trimStart_cases s) as [(cp & r & Hin & -> & Hstep & Hlen) | Hs].
    + apply Spec.blank_more; [exact Hin|].
      apply (IH (String.length r)); [lia | reflexivity | congruence].
    + rewrite Hs in H. subst s. constructor.
  - induction 1 as [|cp s Hin _ IH]; [reflexivity|].
    rewrite (proj1 (trimStart_whiteSpace cp s Hin)). exact IH.
Qed.

Lemma trimStart_idempotent s : trimStart (trimStart s) = trimStart s.
Proof.
  remember (String.length s) as n eqn:Hn. revert s Hn.
  induction n as [n IH] using lt_wf_ind. intros s Hn.
  destruct (trimStart_cases s) as [(cp & r & Hin & -> & Hstep & Hlen) | Hs].
  - rewrite Hstep. apply (IH (String.length r)); [lia | reflexivity].
  - rewrite !Hs. reflexivity.
Qed.

Lemma trimEnd_empty s : trimEnd s = ""%string <-> trimStart s = ""%string.
Proof.
  destruct s as [|c r]; [split; reflexivity|].
  change (trimEnd (String c r))
    with (if (trimStart (String c r) =? "")%string
          then ""%string else String c (trimEnd r)).
  destruct (String.eqb_spec (trimStart (String c r)) "") as [E | E].
  - split; [intros _; exact E | reflexivity].
  - split; [discriminate | intros H; contradiction].
Qed.

(** [trim] leaves nothing exactly of the strings that are white space. *)
Lemma trim_blank s : trim s = ""%string <-> Spec.blank s.
Proof.
  unfold trim. rewrite trimEnd_empty, trimStart_idempotent.
  apply trimStart_blank.
Qed.

(** *** The order of Numbers off NaN *)

Lemma SFcompare_antisym (x y : SpecFloat.spec_float) :
  SpecFloat.SFcompare y x = option_map CompOpp (SpecFloat.SFcompare x y).
Proof.
  destruct x as [sx|sx| |sx mx ex], y as [sy|sy| |sy my ey]; cbn;
    try reflexivity;
    try (destruct sx; reflexivity); try (destruct sy; reflexivity);
    try (destruct sx, sy; reflexivity).
  pose proof (Pos.compare_cont_antisym mx my Eq) as Hm. cbn in Hm.
  destruct sx, sy; cbn; try reflexivity;
    rewrite (Z.compare_antisym ex ey); destruct (ex ?= ey); cbn;
    rewrite <- ?Hm, ?CompOpp_involutive; reflexivity.
Qed.

Lemma is_nan_compare (x : float) :
  is_nan x = false -> Prim2SF x <> SpecFloat.S754_nan.
Proof.
  unfold is_nan. rewrite negb_false_iff, FloatAxioms.eqb_spec.
  intros H E. rewrite E in H. discriminate H.
Qed.

(** Off NaN the order of Numbers is total: [x < y] is the negation of
    [y <= x]. *)
Lemma float_ltb_negb_leb (x y : float) :
  is_nan x = false -> is_nan y = false ->
  (x <? y)%float = negb (y <=? x)%float.
Proof.
  intros Hx Hy. apply is_nan_compare in Hx, Hy.
  rewrite FloatAxioms.ltb_spec, FloatAxioms.leb_spec.
  unfold SpecFloat.SFltb, SpecFloat.SFleb.
  rewrite (SFcompare_antisym (Prim2SF x) (Prim2SF y)).
  destruct (SpecFloat.SFcompare (Prim2SF x) (Prim2SF y)) as [[ | | ]|] eqn:E;
    try reflexivity.
  destruct (Prim2SF x) as [sx|sx| |sx mx ex]; try contradiction;
  destruct (Prim2SF y) as [sy|sy| |sy my ey]; try contradiction;
  discriminate E.
Qed.

Lemma or_num_not_nan (x : option float) (d : float) :
  is_nan d = false -> is_nan (or_num x d) = false.
Proof.
  intros Hd. destruct x as [v|]; [ | exact Hd].
  unfold or_num, truthy_num.
  destruct (is_nan v) eqn:E; destruct (v =? 0)%float; cbn;
    first [exact Hd | exact E].
Qed.

(** *** The tests of [validate] *)

Lemma in_push (c : bool) (m' m : string) (rest : list string) :
  In m ((if c then [m'] else []) ++ rest) <-> (c = true /\ m = m') \/ In m rest.
Proof. destruct c; cbn; intuition congruence. Qed.

Lemma in_last (c : bool) (m' m : string) :
  In m (if c then [m'] else []) <-> c = true /\ m = m'.
Proof. destruct c; cbn; intuition congruence. Qed.

Lemma name_test (name : string) :
  negb (truthy_str name) || (trim name =? "")%string = true <-> Spec.blank name.
Proof.
  rewrite <- trim_blank. unfold truthy_str. rewrite negb_involutive.
  rewrite orb_true_iff, !String.eqb_eq. split; [ | tauto].
  intros [-> | H]; [reflexivity | exact H].
Qed.

Lemma number_test (x : float) :
  is_nan x = false -> (x <=? 0)%float = true <-> ~ Spec.positive x.
Proof.
  intros Hx. unfold Spec.positive.
  rewrite (float_ltb_negb_leb 0 x eq_refl Hx).
  destruct (x <=? 0)%float; cbn; intuition congruence.
Qed.

Lemma threshold_test (x : float) :
  is_nan x = false ->
  (x <? 0)%float || (100 <? x)%float = true <-> ~ Spec.within 0 100 x.
Proof.
  intros Hx. unfold Spec.within.
  rewrite (float_ltb_negb_leb x 0 Hx eq_refl),
    (float_ltb_negb_leb 100 x eq_refl Hx).
  destruct (0 <=? x)%float, (x <=? 100)%float; cbn; intuition congruence.
Qed.

Lemma includes_In (l : list string) (x : string) :
  includes l x = true <-> In x l.
Proof.
  unfold includes. rewrite existsb_exists. split.
  - intros (y & Hy & E). apply String.eqb_eq in E. subst y. exact Hy.
  - intros H. exists x. split; [exact H | apply String.eqb_refl].
Qed.

Lemma type_test (l : list string) (x : string) :
  negb (includes l x) = true <-> ~ In x l.
Proof.
  rewrite <- includes_In. destruct (includes l x); cbn; intuition congruence.
Qed.

Lemma custom_test (ty : string) (cd : option Z) :
  (ty =? "custom")%string && Subscription.customDaysInvalid cd = true
  <-> ty = "custom"%string /\ ~ (exists n, cd = Some n /\ 0 < n).
Proof.
  rewrite andb_true_iff, String.eqb_eq.
  unfold Subscription.customDaysInvalid, truthy_int.
  destruct cd as [n|].
  - rewrite negb_involutive, orb_true_iff, Z.eqb_eq, Z.leb_le. split.
    + intros [Hty Hn]. split; [exact Hty|].
      intros (k & E & Hk). injection E as <-. lia.
    + intros [Hty Hn]. split; [exact Hty|].
      destruct (Z_lt_le_dec 0 n) as [Hpos | Hle]; [ | right; exact Hle].
      exfalso. apply Hn. exists n. split; [reflexivity | exact Hpos].
  - split; intros [Hty _]; (split; [exact Hty|]); [ | reflexivity].
    intros (k & E & _). discriminate E.
Qed.

(** What the constructors store is never what the two other tests of
    [validate] look for, nor NaN. *)
Lemma new_Subscription_currency uuid now data :
  negb (truthy_str (Subscription.currency (Subscription.new uuid now data)))
  = false.
Proof.
  cbn. unfold or_str. destruct (Subscription.Data.currency data) as [v|];
    [ | reflexivity].
  destruct (truthy_str v) eqn:E; [rewrite E | ]; reflexivity.
Qed.

Lemma new_Subscription_date uuid now data :
  negb (truthy_ts (Subscription.nextBillingDate (Subscription.new uuid now data)))
  = false.
Proof.
  cbn. unfold or_ts. destruct (Subscription.Data.nextBillingDate data) as [v|];
    [ | reflexivity].
  destruct (truthy_ts v) eqn:E; [rewrite E | ]; reflexivity.
Qed.

Lemma new_Subscription_cost uuid now data :
  is_nan (Subscription.cost (Subscription.new uuid now data)) = false.
Proof. apply or_num_not_nan. reflexivity. Qed.

Lemma new_Budget_numbers tza uuid now data b :
  Budget.new tza uuid now data = Ok b ->
  is_nan (Budget.amount b) = false /\ is_nan (Budget.alertThreshold b) = false.
Proof.
  unfold Budget.new. intros H.
  destruct (match Budget.Data.period data with Some p => _ | None => _ end)
    as [p|msg]; cbn in H; [ | discriminate H].
  injection H as <-. cbn. split; apply or_num_not_nan; reflexivity.
Qed.

Lemma new_Budget_with_period tza uuid now data p :
  Budget.Data.period data = Some p ->
  exists b, Budget.new tza uuid now data = Ok b.
Proof. intros H. unfold Budget.new. rewrite H. cbn. eexists. reflexivity. Qed.

(** *** The messages collected *)

Lemma messages_NoDup6 (c1 c2 c3 c4 c5 c6 : bool) :
  List.NoDup ((if c1 then ["Name is required"%string] else [])
              ++ (if c2 then ["Cost must be greater than 0"%string] else [])
              ++ (if c3 then ["Currency is required"%string] else [])
              ++ (if c4 then ["Next billing date is required"%string] else [])
              ++ (if c5 then ["Invalid billing cycle type"%string] else [])
              ++ (if c6
                  then ["Custom billing cycle requires valid number of days"%string]
                  else [])).
Proof.
  destruct c1, c2, c3, c4, c5, c6; cbn;
    repeat (constructor; [cbn; intuition discriminate | ]); constructor.
Qed.

Lemma messages_NoDup3 (c1 c2 c3 : bool) :
  List.NoDup ((if c1 then ["Budget amount must be greater than 0"%string] else [])
              ++ (if c2 then ["Invalid budget type"%string] else [])
              ++ (if c3 then ["Alert threshold must be between 0 and 100"%string]
                  else [])).
Proof.
  destruct c1, c2, c3; cbn;
    repeat (constructor; [cbn; intuition discriminate | ]); constructor.
Qed.

Lemma new_Subscription_messages uuid now data :
  Spec.subscriptionMessages (Subscription.new uuid now data)
    (Subscription.validate (Subscription.new uuid now data)).
Proof.
  split; [apply messages_NoDup6|].
  intros m. unfold Subscription.validate.
  rewrite !in_push, in_last.
  rewrite new_Subscription_currency, new_Subscription_date.
  pose proof (name_test (Subscription.name (Subscription.new uuid now data)))
    as H1.
  pose proof (number_test _ (new_Subscription_cost uuid now data)) as H2.
  pose proof (type_test Subscription.cycleTypes
                (BillingCycle.type
                   (Subscription.billingCycle (Subscription.new uuid now data))))
    as H3.
  pose proof (custom_test
                (BillingCycle.type
                   (Subscription.billingCycle (Subscription.new uuid now data)))
                (BillingCycle.customDays
                   (Subscription.billingCycle (Subscription.new uuid now data))))
    as H4.
  unfold Spec.nameMissing, Spec.costNotPositive, Spec.cycleTypeInvalid,
    Spec.customDaysNotPositive.
  change (In (BillingCycle.type
                (Subscription.billingCycle (Subscription.new uuid now data)))
             ["daily"; "weekly"; "monthly"; "quarterly"; "yearly"; "custom"]%string)
    with (In (BillingCycle.type
                (Subscription.billingCycle (Subscription.new uuid now data)))
             Subscription.cycleTypes).
  rewrite <- H1, <- H2, <- H3, <- H4.
  intuition discriminate.
Qed.

Lemma new_Budget_messages tza uuid now data b :
  Budget.new tza uuid now data = Ok b ->
  Spec.budgetMessages b (Budget.validate b).
Proof.
  intros Hb. destruct (new_Budget_numbers _ _ _ _ _ Hb) as [Ha Ht].
  split; [apply messages_NoDup3|].
  intros m. unfold Budget.validate.
  rewrite !in_push, in_last.
  unfold Spec.amountNotPositive, Spec.budgetTypeInvalid, Spec.thresholdOutside.
  change (In (Budget.type b) ["monthly"; "yearly"; "category"]%string)
    with (In (Budget.type b) Budget.budgetTypes).
  rewrite <- (number_test _ Ha), <- (threshold_test _ Ht),
    <- (type_test Budget.budgetTypes (Budget.type b)).
  tauto.
Qed.

Lemma subscription_invalid_messages (s : Subscription.t) (msgs : list string) :
  Spec.subscriptionMessages s msgs ->
  (Spec.subscriptionInvalid s <-> msgs <> []).
Proof.
  intros [_ H]. split.
  - intros Hi E. subst msgs.
    assert (exists m, In m (@nil string)) as (m & Hm); [ | exact Hm].
    destruct Hi as [Hi | [Hi | [Hi | Hi]]];
      eexists; apply H; [ left | right; left | right; right; left
                        | right; right; right ];
      (split; [reflexivity | exact Hi]).
  - intros Hne. destruct msgs as [|e l]; [contradiction|].
    unfold Spec.subscriptionInvalid.
    destruct (proj1 (H e) (or_introl eq_refl))
      as [[_ ?] | [[_ ?] | [[_ ?] | [_ ?]]]]; tauto.
Qed.

Lemma budget_invalid_messages (b : Budget.t) (msgs : list string) :
  Spec.budgetMessages b msgs -> (Spec.budgetInvalid b <-> msgs <> []).
Proof.
  intros [_ H]. split.
  - intros Hi E. subst msgs.
    assert (exists m, In m (@nil string)) as (m & Hm); [ | exact Hm].
    destruct Hi as [Hi | [Hi | Hi]];
      eexists; apply H; [ left | right; left | right; right ];
      (split; [reflexivity | exact Hi]).
  - intros Hne. destruct msgs as [|e l]; [contradiction|].
    unfold Spec.budgetInvalid.
    destruct (proj1 (H e) (or_introl eq_refl)) as [[_ ?] | [[_ ?] | [_ ?]]];
      tauto.
Qed.

(** *** The outcome of a call *)

Lemma outcome_all_or_nothing {A : Type} (before : list A)
    (errors : list string) (invalid : Prop) (messages : list string -> Prop)
    (r : A) (committed : list A) :
  messages errors -> (invalid <-> errors <> []) ->
  Spec.allOrNothing before
    (if Nat.ltb 0 (length errors)
     then (Err (join ", " errors), before) else (Ok r, committed))
    invalid messages r committed.
Proof.
  intros Hm Hi. split.
  - intros H. apply Hi in H. exists errors.
    split; [exact Hm|]. split; [exact H|].
    destruct errors; [contradiction | reflexivity].
  - intros H. destruct errors as [|e l]; [reflexivity|].
    exfalso. apply H, Hi. discriminate.
Qed.

(** [findIndex] returns the first position that holds the identifier. *)
Lemma findIndex_foundAt {A : Type} (ident : A -> string) (l : list A)
    (id : string) (i : nat) (e : A) :
  Spec.foundAt ident l id i e ->
  SubscriptionService.findIndex (fun x => (ident x =? id)%string) l
  = Some (i, e).
Proof.
  revert i. induction l as [|x l IH]; intros i (Hn & Hid & Hfirst).
  - destruct i; discriminate Hn.
  - cbn [SubscriptionService.findIndex]. destruct i as [|i].
    + cbn in Hn. injection Hn as ->.
      rewrite (proj2 (String.eqb_eq _ _) Hid). reflexivity.
    + assert (ident x <> id) as Hx
        by (apply (Hfirst 0%nat x); [lia | reflexivity]).
      rewrite (proj2 (String.eqb_neq _ _) Hx).
      rewrite (IH i); [reflexivity|].
      split; [exact Hn|]. split; [exact Hid|].
      intros j y Hj Hy. apply (Hfirst (S j) y); [lia | exact Hy].
Qed.

Lemma findIndex_none {A : Type} (ident : A -> string) (l : list A) (id : string) :
  (forall x, In x l -> ident x <> id) ->
  SubscriptionService.findIndex (fun x => (ident x =? id)%string) l = None.
Proof.
  induction l as [|x l IH]; intros H; [reflexivity|].
  cbn [SubscriptionService.findIndex].
  rewrite (proj2 (String.eqb_neq _ _) (H x (or_introl eq_refl))).
  rewrite IH; [reflexivity|].
  intros y Hy. apply H. right. exact Hy.
Qed.

(** The assignment [list[index] = updated] at a position of the list. *)
Lemma insert_replaced {A : Type} (l : list A) (i : nat) (e r : A) :
  nth_error l i = Some e -> <[i := r]> l = Spec.replaced l i r.
Proof.
  revert i. induction l as [|x l IH]; intros [|i] H; try discriminate H.
  - reflexivity.
  - cbn in H. unfold Spec.replaced in *. cbn. f_equal. apply IH. exact H.
Qed.

(** The object literal of [update] is the stored record under the keys of
    the data. *)
Lemma merged_subscriptionUpdate now e data :
  SubscriptionService.merged now e data = Spec.subscriptionUpdate now e data.
Proof.
  destruct data as [i n c cu bc nb ca no pm ia rd cr up hi].
  unfold SubscriptionService.merged, Spec.subscriptionUpdate,
    Subscription.spread, Subscription.toJSON, Spec.given. cbn.
  f_equal;
    match goal with
    | |- match ?x with _ => _ end = _ => destruct x; reflexivity
    end.
Qed.

Lemma merged_budgetUpdate now e data :
  BudgetService.merged now e data = Spec.budgetUpdate now e data.
Proof.
  destruct data as [i ty am cu ca pe th ia cr up].
  unfold BudgetService.merged, Spec.budgetUpdate,
    Budget.spread, Budget.toJSON, Spec.given. cbn.
  f_equal;
    match goal with
    | |- match ?x with _ => _ end = _ => destruct x; reflexivity
    end.
Qed.

Lemma create_subscription_all_or_nothing uuid now subs data :
  Spec.allOrNothing subs
    (SubscriptionService.create uuid now subs data)
    (Spec.subscriptionInvalid (Subscription.new uuid now data))
    (Spec.subscriptionMessages (Subscription.new uuid now data))
    (Subscription.new uuid now data)
    (subs ++ [Subscription.new uuid now data]).
Proof.
  unfold SubscriptionService.create. cbv zeta.
  apply outcome_all_or_nothing.
  - apply new_Subscription_messages.
  - apply subscription_invalid_messages, new_Subscription_messages.
Qed.

Lemma update_subscription_all_or_nothing uuid now subs id data i e :
  Spec.foundAt Subscription.id subs id i e ->
  Spec.allOrNothing subs
    (SubscriptionService.update uuid now subs id data)
    (Spec.subscriptionInvalid
       (Subscription.new uuid now (Spec.subscriptionUpdate now e data)))
    (Spec.subscriptionMessages
       (Subscription.new uuid now (Spec.subscriptionUpdate now e data)))
    (Subscription.new uuid now (Spec.subscriptionUpdate now e data))
    (Spec.replaced subs i
       (Subscription.new uuid now (Spec.subscriptionUpdate now e data))).
Proof.
  intros Hfound. unfold SubscriptionService.update.
  rewrite (findIndex_foundAt Subscription.id subs id i e Hfound).
  cbv zeta. rewrite merged_subscriptionUpdate.
  rewrite (insert_replaced subs i e _ (proj1 Hfound)).
  apply outcome_all_or_nothing.
  - apply new_Subscription_messages.
  - apply subscription_invalid_messages, new_Subscription_messages.
Qed.

Lemma update_subscription_not_found uuid now subs id data :
  (forall x, In x subs -> Subscription.id x <> id) ->
  SubscriptionService.update uuid now subs id data
  = (Err "Subscription not found", subs).
Proof.
  intros H. unfold SubscriptionService.update.
  rewrite (findIndex_none Subscription.id subs id H). reflexivity.
Qed.

Lemma create_budget_all_or_nothing tza uuid now budgets data :
  (forall b,
     Budget.new tza uuid now data = Ok b ->
     Spec.allOrNothing budgets
       (BudgetService.create tza uuid now budgets data)
       (Spec.budgetInvalid b) (Spec.budgetMessages b) b (budgets ++ [b]))
  /\ (forall msg,
        Budget.new tza uuid now data = Err msg ->
        BudgetService.create tza uuid now budgets data = (Err msg, budgets)).
Proof.
  unfold BudgetService.create. split.
  - intros b Hb. rewrite Hb. cbv zeta.
    apply outcome_all_or_nothing.
    + apply (new_Budget_messages _ _ _ _ _ Hb).
    + apply budget_invalid_messages, (new_Budget_messages _ _ _ _ _ Hb).
  - intros msg Hb. rewrite Hb. reflexivity.
Qed.

Lemma update_budget_all_or_nothing tza uuid now budgets id data i e :
  Spec.foundAt Budget.id budgets id i e ->
  exists r,
    Budget.new tza uuid now (Spec.budgetUpdate now e data) = Ok r
    /\ Spec.allOrNothing budgets
         (BudgetService.update tza uuid now budgets id data)
         (Spec.budgetInvalid r) (Spec.budgetMessages r) r
         (Spec.replaced budgets i r).
Proof.
  intros Hfound.
  destruct (new_Budget_with_period tza uuid now
              (Spec.budgetUpdate now e data) _ eq_refl) as (r & Hr).
  exists r. split; [exact Hr|].
  unfold BudgetService.update.
  rewrite (findIndex_foundAt Budget.id budgets id i e Hfound).
  rewrite merged_budgetUpdate, Hr. cbv zeta.
  rewrite (insert_replaced budgets i e _ (proj1 Hfound)).
  apply outcome_all_or_nothing.
  - apply (new_Budget_messages _ _ _ _ _ Hr).
  - apply budget_invalid_messages, (new_Budget_messages _ _ _ _ _ Hr).
Qed.

Lemma update_budget_not_found tza uuid now budgets id data :
  (forall x, In x budgets -> Budget.id x <> id) ->
  BudgetService.update tza uuid now budgets id data
  = (Err "Budget not found", budgets).
Proof.
  intros H. unfold BudgetService.update.
  rewrite (findIndex_none Budget.id budgets id H). reflexivity.
Qed.

(** Whatever the call throws, the collection is as it was. *)
Lemma throw_leaves_collection tza uuid now subs budgets id sdata bdata :
  (isOk (fst (SubscriptionService.create uuid now subs sdata)) = false ->
   snd (SubscriptionService.create uuid now subs sdata) = subs)
  /\ (isOk (fst (SubscriptionService.update uuid now subs id sdata)) = false ->
      snd (SubscriptionService.update uuid now subs id sdata) = subs)
  /\ (isOk (fst (BudgetService.create tza uuid now budgets bdata)) = false ->
      snd (BudgetService.create tza uuid now budgets bdata) = budgets)
  /\ (isOk (fst (BudgetService.update tza uuid now budgets id bdata)) = false ->
      snd (BudgetService.update tza uuid now budgets id bdata) = budgets).
Proof.
  unfold SubscriptionService.create, SubscriptionService.update,
    BudgetService.create, BudgetService.update. cbv zeta.
  split; [ | split; [ | split]].
  - destruct (Nat.ltb 0 _); cbn; [reflexivity | discriminate].
  - destruct (SubscriptionService.findIndex _ subs) as [[index existing]|];
      [ | reflexivity].
    destruct (Nat.ltb 0 _); cbn; [reflexivity | discriminate].
  - destruct (Budget.new tza uuid now bdata) as [b|msg]; [ | reflexivity].
    destruct (Nat.ltb 0 _); cbn; [reflexivity | discriminate].
  - destruct (SubscriptionService.findIndex _ budgets) as [[index existing]|];
      [ | reflexivity].
    destruct (Budget.new tza uuid now _) as [b|msg]; [ | reflexivity].
    destruct (Nat.ltb 0 _); cbn; [reflexivity | discriminate].
Qed.

(** C8.  A create or an update of a subscription or of a budget validates
    the record built from the data before it touches the collection.  When
    a validation error applies (missing name: none, or white space only;
    cost or amount not positive; cycle type outside the six or budget type
    outside the three; custom cycle without a positive customDays; alert
    threshold outside [0, 100]) the call fails with one error whose message
    joins, with a comma and a space, the messages collected: one for each
    error that applies, and no other; the collection is unchanged.  When
    none applies the call returns the record and the collection holds it in
    full: at the end for a create, in the place of the stored record for an
    update.  An update is of the first stored record with the identifier,
    and builds the new one from the stored one under the keys of the data;
    without such a record it fails and the collection is unchanged, as it is
    when the constructor of a budget fails.  No call that fails changes the
    collection. *)
Theorem C8_validation_all_or_nothing :
  (forall uuid now subs data,
     let r := Subscription.new uuid now data in
     Spec.allOrNothing subs
       (SubscriptionService.create uuid now subs data)
       (Spec.subscriptionInvalid r) (Spec.subscriptionMessages r)
       r (subs ++ [r]))
  /\ (forall uuid now subs id data i e,
        Spec.foundAt Subscription.id subs id i e ->
        let r := Subscription.new uuid now (Spec.subscriptionUpdate now e data) in
        Spec.allOrNothing subs
          (SubscriptionService.update uuid now subs id data)
          (Spec.subscriptionInvalid r) (Spec.subscriptionMessages r)
          r (Spec.replaced subs i r))
  /\ (forall uuid now subs id data,
        (forall x, In x subs -> Subscription.id x <> id) ->
        SubscriptionService.update uuid now subs id data
        = (Err "Subscription not found", subs))
  /\ (forall tza uuid now budgets data,
        (forall b,
           Budget.new tza uuid now data = Ok b ->
           Spec.allOrNothing budgets
             (BudgetService.create tza uuid now budgets data)
             (Spec.budgetInvalid b) (Spec.budgetMessages b)
             b (budgets ++ [b]))
        /\ (forall msg,
              Budget.new tza uuid now data = Err msg ->
              BudgetService.create tza uuid now budgets data
              = (Err msg, budgets)))
  /\ (forall tza uuid now budgets id data i e,
        Spec.foundAt Budget.id budgets id i e ->
        exists r,
          Budget.new tza uuid now (Spec.budgetUpdate now e data) = Ok r
          /\ Spec.allOrNothing budgets
               (BudgetService.update tza uuid now budgets id data)
               (Spec.budgetInvalid r) (Spec.budgetMessages r)
               r (Spec.replaced budgets i r))
  /\ (forall tza uuid now budgets id data,
        (forall x, In x budgets -> Budget.id x <> id) ->
        BudgetService.update tza uuid now budgets id data
        = (Err "Budget not found", budgets))
  /\ (forall tza uuid now subs budgets id sdata bdata,
        (isOk (fst (SubscriptionService.create uuid now subs sdata)) = false ->
         snd (SubscriptionService.create uuid now subs sdata) = subs)
        /\ (isOk (fst (SubscriptionService.update uuid now subs id sdata)) = false ->
            snd (SubscriptionService.update uuid now subs id sdata) = subs)
        /\ (isOk (fst (BudgetService.create tza uuid now budgets bdata)) = false ->
            snd (BudgetService.create tza uuid now budgets bdata) = budgets)
        /\ (isOk (fst (BudgetService.update tza uuid now budgets id bdata)) = false ->
            snd (BudgetService.update tza uuid now budgets id bdata) = budgets)).
Proof.
  split; [exact create_subscription_all_or_nothing|].
  split; [exact update_subscription_all_or_nothing|].
  split; [exact update_subscription_not_found|].
  split; [exact create_budget_all_or_nothing|].
  split; [exact update_budget_all_or_nothing|].
  split; [exact update_budget_not_found|].
  exact throw_leaves_collection.
Qed.

(** The form without a name, with cost 0 and the type custom is refused
    with the three messages; a name of U+00A0 and U+3000 is a missing one. *)
Lemma create_refused_example :
  SubscriptionService.create "fresh" 0 Examples.stored
    (Examples.formData "" 0 "custom")
  = (Err "Name is required, Cost must be greater than 0, Custom billing cycle requires valid number of days",
     Examples.stored).
Proof. vm_compute. reflexivity. Qed.

Lemma update_refused_example :
  SubscriptionService.update "fresh" 5 Examples.stored "s1"
    (Examples.renaming Examples.spaces 12)
  = (Err "Name is required", Examples.stored).
Proof. vm_compute. reflexivity. Qed.

Lemma budget_refused_example :
  BudgetService.create Examples.utc "fresh" 0 Examples.storedBudgets
    (Examples.januaryData 0 (Some 150%float))
  = (Err "Budget amount must be greater than 0, Alert threshold must be between 0 and 100",
     Examples.storedBudgets).
Proof. vm_compute. reflexivity. Qed.

Ltac subscription_is_valid :=
  let H := fresh "H" in
  intros [H | [H | [H | [H _]]]];
  [ apply (proj2 (trim_blank _)) in H; vm_compute in H; discriminate H
  | apply H; vm_compute; reflexivity
  | apply H; in_closed_list
  | vm_compute in H; discriminate H ].

Ltac budget_is_valid :=
  let H := fresh "H" in
  intros [H | [H | H]];
  [ apply H; vm_compute; reflexivity
  | apply H; in_closed_list
  | apply H; vm_compute; split; reflexivity ].

Ltac found_first :=
  split; [reflexivity | split; [reflexivity | intros ? ? ?; lia]].

(** A create that is refused and one that commits; an update that commits,
    one that is refused for a name of white space, and one of an identifier
    that is not stored; the same for budgets. *)
Lemma C8_validation_all_or_nothing_witness :
  (exists msgs,
     Spec.subscriptionMessages
       (Subscription.new "fresh" 0 (Examples.formData "" 0 "custom")) msgs
     /\ msgs <> []
     /\ SubscriptionService.create "fresh" 0 Examples.stored
          (Examples.formData "" 0 "custom")
        = (Err (join ", " msgs), Examples.stored))
  /\ SubscriptionService.create "fresh" 0 Examples.stored
       (Examples.formData "Films" 15 "monthly")
     = (Ok (Subscription.new "fresh" 0 (Examples.formData "Films" 15 "monthly")),
        Examples.stored
        ++ [Subscription.new "fresh" 0 (Examples.formData "Films" 15 "monthly")])
  /\ SubscriptionService.update "fresh" 5 Examples.stored "s1"
       (Examples.renaming "Films" 12)
     = (Ok (Subscription.new "fresh" 5
              (Spec.subscriptionUpdate 5
                 (Examples.costing 10 (Examples.cycle "monthly" None))
                 (Examples.renaming "Films" 12))),
        [Subscription.new "fresh" 5
           (Spec.subscriptionUpdate 5
              (Examples.costing 10 (Examples.cycle "monthly" None))
              (Examples.renaming "Films" 12))])
  /\ (exists msgs,
        Spec.subscriptionMessages
          (Subscription.new "fresh" 5
             (Spec.subscriptionUpdate 5
                (Examples.costing 10 (Examples.cycle "monthly" None))
                (Examples.renaming Examples.spaces 12))) msgs
        /\ msgs <> []
        /\ SubscriptionService.update "fresh" 5 Examples.stored "s1"
             (Examples.renaming Examples.spaces 12)
           = (Err (join ", " msgs), Examples.stored))
  /\ SubscriptionService.update "fresh" 5 Examples.stored "s9"
       (Examples.renaming "Films" 12)
     = (Err "Subscription not found", Examples.stored)
  /\ (exists msgs,
        Spec.budgetMessages (Examples.january 100 150) msgs
        /\ msgs <> []
        /\ BudgetService.create Examples.utc "fresh" 0 Examples.storedBudgets
             (Examples.januaryData 100 (Some 150%float))
           = (Err (join ", " msgs), Examples.storedBudgets))
  /\ BudgetService.create Examples.utc "fresh" 0 Examples.storedBudgets
       (Examples.januaryData 100 (Some 90%float))
     = (Ok (Examples.january 100 90),
        Examples.storedBudgets ++ [Examples.january 100 90])
  /\ (exists r,
        Budget.new Examples.utc "fresh" 5
          (Spec.budgetUpdate 5 (Examples.january 100 80) (Examples.threshold 90))
        = Ok r
        /\ BudgetService.update Examples.utc "fresh" 5 Examples.storedBudgets "b1"
             (Examples.threshold 90)
           = (Ok r, [r]))
  /\ BudgetService.update Examples.utc "fresh" 5 Examples.storedBudgets "b9"
       (Examples.threshold 90)
     = (Err "Budget not found", Examples.storedBudgets).
Proof.
  pose proof C8_validation_all_or_nothing
    as (Hc & Hu & Hn & Hbc & Hbu & Hbn & _).
  split.
  { apply (proj1 (Hc "fresh"%string 0 Examples.stored
                    (Examples.formData "" 0 "custom"))).
    left. apply trim_blank. vm_compute. reflexivity. }
  split.
  { apply (proj2 (Hc "fresh"%string 0 Examples.stored
                    (Examples.formData "Films" 15 "monthly"))).
    subscription_is_valid. }
  split.
  { apply (proj2 (Hu "fresh"%string 5 Examples.stored "s1"%string
                    (Examples.renaming "Films" 12) 0%nat
                    (Examples.costing 10 (Examples.cycle "monthly" None))
                    ltac:(found_first))).
    subscription_is_valid. }
  split.
  { apply (proj1 (Hu "fresh"%string 5 Examples.stored "s1"%string
                    (Examples.renaming Examples.spaces 12) 0%nat
                    (Examples.costing 10 (Examples.cycle "monthly" None))
                    ltac:(found_first))).
    left. apply trim_blank. vm_compute. reflexivity. }
  split.
  { apply Hn. intros x [<- | []]. discriminate. }
  split.
  { apply (proj1 (proj1 (Hbc Examples.utc "fresh"%string 0
                           Examples.storedBudgets
                           (Examples.januaryData 100 (Some 150%float)))
                    (Examples.january 100 150) eq_refl)).
    right. right. intros [_ H]. vm_compute in H. discriminate H. }
  split.
  { apply (proj2 (proj1 (Hbc Examples.utc "fresh"%string 0
                           Examples.storedBudgets
                           (Examples.januaryData 100 (Some 90%float)))
                    (Examples.january 100 90) eq_refl)).
    budget_is_valid. }
  split.
  { destruct (Hbu Examples.utc "fresh"%string 5 Examples.storedBudgets
                "b1"%string (Examples.threshold 90) 0%nat
                (Examples.january 100 80) ltac:(found_first))
      as (r & Hr & Hall).
    exists r. split; [exact Hr|].
    injection Hr as <-.
    apply (proj2 Hall). budget_is_valid. }
  apply Hbn. intros x [<- | []]. discriminate.
Defined.

(** ** C9: the CSV export *)

Lemma firstLine_app (a r : string) :
  Csv.includesChar Csv.newline a = false ->
  Spec.firstLine (a ++ String Csv.newline r) = a.
Proof.
  induction a as [|c a IH]; cbn [String.append Spec.firstLine Csv.includesChar].
  - intros _. rewrite Ascii.eqb_refl. reflexivity.
  - intros H. apply orb_false_iff in H. destruct H as [Hc Ha].
    rewrite Hc, (IH Ha). reflexivity.
Qed.

(** With at least one subscription the export is the header of nine
    columns, then one row for each subscription, each on a line of its
    own. *)
Lemma convertToCSV_rows numberToString isoDatePart sub subs :
  Csv.convertToCSV numberToString isoDatePart (sub :: subs)
  = (Spec.csvHeader
       ++ String Csv.newline
            (join (String Csv.newline EmptyString)
               (map (Csv.row numberToString isoDatePart) (sub :: subs))))%string.
Proof.
  unfold Csv.convertToCSV. cbn [length Nat.eqb map].
  unfold join at 1. cbn [String.concat]. reflexivity.
Qed.

(** C9 (the code departs from it).  On an empty list of subscriptions the
    export is the one line
    [Name,Cost,Currency,Billing Cycle,Next Billing Date,Category,Status,Notes]:
    eight columns, without Created Date.  On a list that is not empty the
    first line is the header of nine columns. *)
Theorem C9_csv_header_on_empty_export
    (numberToString : float -> string) (isoDatePart : Z -> string) :
  Csv.convertToCSV numberToString isoDatePart []
  = ("Name,Cost,Currency,Billing Cycle,Next Billing Date,Category,Status,Notes"
       ++ String Csv.newline EmptyString)%string
  /\ Spec.firstLine (Csv.convertToCSV numberToString isoDatePart [])
     <> Spec.csvHeader
  /\ (forall sub subs,
        Spec.firstLine (Csv.convertToCSV numberToString isoDatePart (sub :: subs))
        = Spec.csvHeader).
Proof.
  split; [reflexivity|].
  split.
  - vm_compute. discriminate.
  - intros sub subs. rewrite convertToCSV_rows.
    apply firstLine_app. vm_compute. reflexivity.
Qed.

(** * Further properties of the code *)

(** ** models: what is stored is what is read back *)

Lemma or_str_truthy x d : d <> ""%string -> truthy_str (or_str x d) = true.
Proof.
  intros Hd. unfold or_str.
  assert (truthy_str d = true) as Ed.
  { unfold truthy_str. rewrite negb_true_iff. apply String.eqb_neq. exact Hd. }
  destruct x as [v|]; [ | exact Ed].
  destruct (truthy_str v) eqn:E; [exact E | exact Ed].
Qed.

Lemma or_str_idem x d d' :
  d <> ""%string -> or_str (Some (or_str x d)) d' = or_str x d.
Proof.
  intros Hd. unfold or_str at 1. rewrite (or_str_truthy x d Hd). reflexivity.
Qed.

Lemma or_str_idem_empty x : or_str (Some (or_str x "")) "" = or_str x "".
Proof.
  unfold or_str at 1.
  destruct (truthy_str (or_str x "")) eqn:E; [reflexivity|].
  unfold truthy_str in E. rewrite negb_false_iff, String.eqb_eq in E.
  exact (eq_sym E).
Qed.

Lemma or_num_idem x d d' :
  truthy_num d = true -> or_num (Some (or_num x d)) d' = or_num x d.
Proof.
  intros Hd. unfold or_num at 1.
  destruct x as [v|]; cbn; [ | rewrite Hd; reflexivity].
  destruct (truthy_num v) eqn:E; [rewrite E | rewrite Hd]; reflexivity.
Qed.

Lemma or_num_idem_zero x : or_num (Some (or_num x 0)) 0 = or_num x 0.
Proof.
  unfold or_num at 1.
  destruct (truthy_num (or_num x 0)) eqn:E; [reflexivity|].
  destruct x as [v|]; cbn in *; [ | reflexivity].
  destruct (truthy_num v) eqn:E'; [congruence | reflexivity].
Qed.

Lemma or_ts_idem x d d' :
  or_ts (Some (or_ts x (isoNow d))) d' = or_ts x (isoNow d).
Proof.
  unfold or_ts at 1.
  destruct x as [v|]; cbn; [ | reflexivity].
  destruct (truthy_ts v) eqn:E; [rewrite E | ]; reflexivity.
Qed.

(** X1.  [Subscription.fromJSON(s.toJSON())] is [s] again, field by field,
    for every subscription [s] that the constructor built, whenever and
    with whatever fresh identifier it is read back: no default applies a
    second time.  (The identifier that [generateUUID] gave is not empty.) *)
Theorem subscription_round_trip uuid now uuid' now' data :
  uuid <> ""%string ->
  Subscription.fromJSON uuid' now'
    (Subscription.toJSON (Subscription.new uuid now data))
  = Subscription.new uuid now data.
Proof.
  intros Hu. unfold Subscription.fromJSON, Subscription.new, Subscription.toJSON.
  cbn [Subscription.Data.id Subscription.Data.name Subscription.Data.cost
       Subscription.Data.currency Subscription.Data.billingCycle
       Subscription.Data.nextBillingDate Subscription.Data.category
       Subscription.Data.notes Subscription.Data.paymentMethod
       Subscription.Data.isActive Subscription.Data.reminderDays
       Subscription.Data.createdAt Subscription.Data.updatedAt
       Subscription.Data.history
       Subscription.id Subscription.name Subscription.cost
       Subscription.currency Subscription.billingCycle
       Subscription.nextBillingDate Subscription.category
       Subscription.notes Subscription.paymentMethod
       Subscription.isActive Subscription.reminderDays
       Subscription.createdAt Subscription.updatedAt
       Subscription.history defined_or].
  rewrite !or_ts_idem, or_num_idem_zero, !or_str_idem_empty.
  rewrite !(or_str_idem _ _ _ Hu).
  rewrite !or_str_idem by discriminate.
  reflexivity.
Qed.

Lemma subscription_round_trip_witness :
  Subscription.fromJSON "other" 99
    (Subscription.toJSON
       (Subscription.new "fresh" 0 (Examples.formData "Films" 15 "monthly")))
  = Subscription.new "fresh" 0 (Examples.formData "Films" 15 "monthly").
Proof. apply subscription_round_trip. discriminate. Defined.

(** X2.  [Budget.fromJSON(b.toJSON())] is [b] again for every budget [b]
    that the constructor built, in whatever zone and at whatever instant it
    is read back: the period is stored, so it is not computed again. *)
Theorem budget_round_trip tza uuid now tza' uuid' now' data b :
  uuid <> ""%string ->
  Budget.new tza uuid now data = Ok b ->
  Budget.fromJSON tza' uuid' now' (Budget.toJSON b) = Ok b.
Proof.
  intros Hu H. unfold Budget.new in H.
  destruct (match Budget.Data.period data with Some p => _ | None => _ end)
    as [p|msg]; cbn in H; [ | discriminate H].
  injection H as <-.
  unfold Budget.fromJSON, Budget.new, Budget.toJSON.
  cbn [Budget.Data.id Budget.Data.type Budget.Data.amount Budget.Data.currency
       Budget.Data.category Budget.Data.period Budget.Data.alertThreshold
       Budget.Data.isActive Budget.Data.createdAt Budget.Data.updatedAt
       Budget.id Budget.type Budget.amount Budget.currency Budget.category
       Budget.period Budget.alertThreshold Budget.isActive Budget.createdAt
       Budget.updatedAt defined_or bind].
  rewrite !or_ts_idem, or_num_idem_zero, (or_num_idem _ 80 80 eq_refl).
  rewrite !(or_str_idem _ _ _ Hu).
  rewrite !or_str_idem by discriminate.
  do 2 f_equal.
  destruct (Budget.Data.category data) as [[c|]|]; try reflexivity.
  destruct (truthy_str c) eqn:E; [rewrite E | ]; reflexivity.
Qed.

Lemma budget_round_trip_witness :
  Budget.fromJSON Examples.newYork "other" 99
    (Budget.toJSON (Examples.january 100 80))
  = Ok (Examples.january 100 80).
Proof.
  apply (budget_round_trip Examples.utc "fresh" 0 Examples.newYork "other" 99
           (Examples.januaryData 100 None)); [discriminate | reflexivity].
Defined.

(** X3.  [new Subscription({})] is a monthly subscription in USD, of
    category Other, active and due now; [validate] finds exactly its
    missing name and its cost of 0, and [create({})] is refused with these
    two messages. *)
Theorem default_subscription uuid now subs :
  let s := Subscription.new uuid now Examples.noData in
  Subscription.validate s
  = ["Name is required"; "Cost must be greater than 0"]%string
  /\ BillingCycle.type (Subscription.billingCycle s) = "monthly"%string
  /\ Subscription.currency s = "USD"%string
  /\ Subscription.category s = "Other"%string
  /\ Subscription.isActive s = true
  /\ Subscription.nextBillingDate s = isoNow now
  /\ SubscriptionService.create uuid now subs Examples.noData
     = (Err "Name is required, Cost must be greater than 0", subs).
Proof. cbv zeta. repeat split; reflexivity. Qed.

(** X4.  The default period of a budget ends one calendar year after now
    for the type yearly, and one calendar month after now for every other
    type, monthly or not. *)
Theorem default_period tza now type :
  (type <> "yearly"%string ->
   Budget.calculatePeriodEnd tza now type
   = toISOString (DateUtils.addMonths tza (Some now) 1))
  /\ Budget.calculatePeriodEnd tza now "yearly"
     = toISOString (DateUtils.addYears tza (Some now) 1).
Proof.
  unfold Budget.calculatePeriodEnd, DateUtils.addMonths, DateUtils.addYears.
  cbv zeta. split; [ | reflexivity].
  intros H. apply String.eqb_neq in H. rewrite H.
  destruct (type =? "monthly")%string; reflexivity.
Qed.

Lemma default_period_witness :
  Budget.calculatePeriodEnd Examples.utc Examples.jan01_2024 "category"
  = Ok (TsText (Some Examples.feb01_2024)).
Proof.
  rewrite (proj1 (default_period Examples.utc Examples.jan01_2024 "category"));
    [vm_compute; reflexivity | discriminate].
Defined.

(** ** models/budget.js: the period and the alert *)

(** X5.  [isInPeriod(date)] holds exactly when the date and the two bounds
    of the period are dates and start <= date <= end, both bounds included;
    it is the test [isWithinRange] of date-utils.js on the period. *)
Theorem isInPeriod_inclusive (b : Budget.t) (date : timestamp) :
  (Budget.isInPeriod b date = true
   <-> exists d s e,
         date = TsText (Some d)
         /\ Period.start (Budget.period b) = TsText (Some s)
         /\ Period.end_ (Budget.period b) = TsText (Some e)
         /\ s <= d <= e)
  /\ Budget.isInPeriod b date
     = DateUtils.isWithinRange date
         (Period.start (Budget.period b)) (Period.end_ (Budget.period b)).
Proof.
  unfold Budget.isInPeriod, DateUtils.isWithinRange, newDate, date_leb.
  cbv zeta. split; [split | ].
  - destruct date as [|[d|]];
      destruct (Period.start (Budget.period b)) as [|[s|]];
      destruct (Period.end_ (Budget.period b)) as [|[e|]];
      cbn; try discriminate; rewrite ?andb_false_r; try discriminate.
    intros H. apply andb_true_iff in H. destruct H as [H1 H2].
    exists d, s, e. repeat split; try reflexivity; lia.
  - intros (d & s & e & -> & -> & -> & H1 & H2).
    apply andb_true_iff. split; lia.
  - destruct date as [|[d|]];
      destruct (Period.start (Budget.period b)) as [|[s|]];
      destruct (Period.end_ (Budget.period b)) as [|[e|]];
      cbn; rewrite ?andb_false_r; reflexivity.
Qed.

(** X6.  When [shouldAlert] holds the alert level is danger or warning; the
    level warning is only given when [shouldAlert] holds, and at the levels
    info and success it does not. *)
Theorem shouldAlert_level (b : Budget.t) (spent : float) :
  (Budget.shouldAlert b spent = true ->
   Budget.getAlertLevel b spent = "danger"%string
   \/ Budget.getAlertLevel b spent = "warning"%string)
  /\ (Budget.getAlertLevel b spent = "warning"%string ->
      Budget.shouldAlert b spent = true)
  /\ (Budget.getAlertLevel b spent = "info"%string
      \/ Budget.getAlertLevel b spent = "success"%string ->
      Budget.shouldAlert b spent = false).
Proof.
  unfold Budget.shouldAlert, Budget.getAlertLevel. cbv zeta.
  destruct (100 <=? Budget.calculatePercentageUsed b spent)%float;
    destruct (Budget.alertThreshold b
              <=? Budget.calculatePercentageUsed b spent)%float;
    destruct (Budget.alertThreshold b * 0.75
              <=? Budget.calculatePercentageUsed b spent)%float;
    repeat split; intros; try tauto; try discriminate;
    repeat match goal with H : _ \/ _ |- _ => destruct H end;
    try discriminate; auto.
Qed.

(** Of a budget of 100 with threshold 80: 85 spent is a warning and
    alerts; 70 spent (info) does not. *)
Lemma shouldAlert_level_witness :
  Budget.getAlertLevel (Examples.january 100 80) 85 = "warning"%string
  /\ Budget.shouldAlert (Examples.january 100 80) 85 = true
  /\ Budget.shouldAlert (Examples.january 100 80) 70 = false.
Proof.
  pose proof (shouldAlert_level (Examples.january 100 80) 85) as (H1 & H2 & _).
  pose proof (shouldAlert_level (Examples.january 100 80) 70) as (_ & _ & H3).
  assert (Budget.getAlertLevel (Examples.january 100 80) 85 = "warning"%string)
    as Hw by (vm_compute; reflexivity).
  split; [exact Hw|]. split; [exact (H2 Hw)|].
  apply H3. left. vm_compute. reflexivity.
Defined.

(** ** utils/date-utils.js: steps of days, months and years *)

Lemma TimeClip_in_range t : Z.abs t <= maxTime -> TimeClip t = Some t.
Proof.
  intros H. unfold TimeClip. destruct (Z.leb_spec (Z.abs t) maxTime); [reflexivity | lia].
Qed.

(** One month further is the days of the month further. *)
Lemma MakeDay_add_date y m d n : MakeDay y m (d + n) = MakeDay y m d + n.
Proof. unfold MakeDay. cbv zeta. lia. Qed.

Lemma MakeDay_succ_month y m d :
  MakeDay y (m + 1) d = MakeDay y m d + DaysInMonth (y + m / 12) (m mod 12).
Proof.
  assert (Hn : MakeDay y (m + 1) d = MakeDay (y + m / 12) (m mod 12 + 1) d).
  { unfold MakeDay. cbv zeta.
    replace (y + m / 12 + (m mod 12 + 1) / 12) with (y + (m + 1) / 12)
      by (Z.div_mod_to_equations; lia).
    replace ((m mod 12 + 1) mod 12) with ((m + 1) mod 12)
      by (Z.div_mod_to_equations; lia).
    reflexivity. }
  pose proof (MakeDay_overflow (y + m / 12) (m mod 12)
                (d + DaysInMonth (y + m / 12) (m mod 12))
                ltac:(apply Z.mod_pos_bound; lia)) as Ho.
  replace (d + DaysInMonth (y + m / 12) (m mod 12)
           - DaysInMonth (y + m / 12) (m mod 12)) with d in Ho by lia.
  rewrite MakeDay_add_date in Ho.
  rewrite Hn, <- Ho, <- MakeDay_month_norm. reflexivity.
Qed.

(** A step of one month moves a local time by the length of its month. *)
Lemma monthStep_one L :
  Spec.monthStep L 1
  = L + DaysInMonth (YearFromTime L) (MonthFromTime L) * msPerDay.
Proof.
  unfold Spec.monthStep. rewrite MakeDay_succ_month.
  pose proof (MonthFromTime_range L) as Hm.
  rewrite (Z.div_small (MonthFromTime L) 12), (Z.mod_small (MonthFromTime L) 12),
    Z.add_0_r by lia.
  pose proof (MakeDay_fields L 0) as Hd. rewrite !Z.add_0_r in Hd. rewrite Hd.
  pose proof (MakeDate_Day L) as H. unfold MakeDate in *. lia.
Qed.

Lemma monthStart_next_year y m :
  0 <= m < 12 ->
  monthStart (isLeapYear (y + 1)) m + DaysInYear y
  = monthStart (isLeapYear y) m
    + DaysInYear (if m <? 2 then y else y + 1).
Proof.
  intros Hm. unfold DaysInYear.
  by_month Hm; cbn; destruct (isLeapYear y), (isLeapYear (y + 1)); lia.
Qed.

(** A step of twelve months is 366 days when it passes a 29 February, and
    365 days otherwise. *)
Lemma monthStep_twelve L :
  Spec.monthStep L 12
  = L + DaysInYear (if MonthFromTime L <? 2 then YearFromTime L
                    else YearFromTime L + 1) * msPerDay.
Proof.
  unfold Spec.monthStep. rewrite <- MakeDay_next_year.
  pose proof (MonthFromTime_range L) as Hm.
  rewrite MakeDay_normal by exact Hm.
  pose proof (MakeDay_fields L 0) as Hd. rewrite !Z.add_0_r in Hd.
  rewrite MakeDay_normal in Hd by exact Hm.
  pose proof (MakeDate_Day L) as H. unfold MakeDate in *.
  rewrite DayFromYear_succ.
  pose proof (monthStart_next_year (YearFromTime L) (MonthFromTime L) Hm).
  lia.
Qed.

(** X7.  In a zone whose offset never changes, [addDays(date, n)] is the
    date [n] times 24 hours later, or an Invalid Date when that is outside
    the range of Date; adding [a] days and then [b] days is adding [a + b]
    days, as long as the date in between is within the range. *)
Theorem addDays_fixed_zone (offset t a b : Z) :
  DateUtils.addDays (fixedZone offset) (Some t) a = TimeClip (t + a * msPerDay)
  /\ (Z.abs (t + a * msPerDay) <= maxTime ->
      DateUtils.addDays (fixedZone offset) (Some t) a = Some (t + a * msPerDay)
      /\ DateUtils.addDays (fixedZone offset)
           (DateUtils.addDays (fixedZone offset) (Some t) a) b
         = DateUtils.addDays (fixedZone offset) (Some t) (a + b))
  /\ (maxTime < Z.abs (t + a * msPerDay) ->
      DateUtils.addDays (fixedZone offset) (Some t) a = None).
Proof.
  assert (forall u n, DateUtils.addDays (fixedZone offset) (Some u) n
                      = TimeClip (u + n * msPerDay)) as H.
  { intros u n. unfold DateUtils.addDays. cbv zeta.
    rewrite setDate_getDate, dayStep_fixedZone. reflexivity. }
  split; [apply H|]. rewrite !H. split; intros Hr.
  - rewrite (TimeClip_in_range _ Hr), H.
    split; [reflexivity | f_equal; lia].
  - unfold TimeClip. apply Z.leb_gt in Hr. rewrite Hr. reflexivity.
Qed.

(** An hour east of Greenwich: three days and then four days after
    2024-01-31 is seven days after it; one day after the last instant of
    the range is no date. *)
Lemma addDays_fixed_zone_witness :
  DateUtils.addDays (fixedZone 3600000)
    (DateUtils.addDays (fixedZone 3600000) (Some Examples.jan31_2024) 3) 4
  = Some (Examples.jan31_2024 + 7 * msPerDay)
  /\ DateUtils.addDays (fixedZone 3600000) (Some maxTime) 1 = None.
Proof.
  pose proof (addDays_fixed_zone 3600000 Examples.jan31_2024 3 4) as (_ & H & _).
  pose proof (addDays_fixed_zone 3600000 maxTime 1 0) as (_ & _ & H').
  split.
  - rewrite (proj2 (H ltac:(vm_compute; discriminate))).
    vm_compute. reflexivity.
  - apply H'. vm_compute. reflexivity.
Defined.

(** X8.  [addMonths(date, 1)] moves the local time by the number of days of
    the month the date is in, 28 to 31 of them. *)
Theorem addMonths_one_is_month_length (tza : zone) (t : Z) :
  DateUtils.addMonths tza (Some t) 1
  = TimeClip (UTC tza (LocalTime tza t
                       + DaysInMonth (YearFromTime (LocalTime tza t))
                                     (MonthFromTime (LocalTime tza t))
                         * msPerDay))
  /\ 28 <= DaysInMonth (YearFromTime (LocalTime tza t))
                       (MonthFromTime (LocalTime tza t)) <= 31.
Proof.
  split; [ | apply DaysInMonth_bounds].
  unfold DateUtils.addMonths. cbv zeta.
  rewrite setMonth_getMonth, monthStep_one. reflexivity.
Qed.

(** X9.  [addYears(date, 1)] is [addMonths(date, 12)] on every date, and
    moves the local time of a valid date by 366 days when the year ahead
    holds a 29 February, by 365 days otherwise. *)
Theorem addYears_is_twelve_months (tza : zone) (d : jsdate) :
  DateUtils.addYears tza d 1 = DateUtils.addMonths tza d 12
  /\ (forall t, d = Some t ->
        DateUtils.addYears tza d 1
        = TimeClip (UTC tza (LocalTime tza t
                             + DaysInYear
                                 (if MonthFromTime (LocalTime tza t) <? 2
                                  then YearFromTime (LocalTime tza t)
                                  else YearFromTime (LocalTime tza t) + 1)
                               * msPerDay))).
Proof.
  unfold DateUtils.addYears, DateUtils.addMonths. cbv zeta.
  split.
  - destruct d as [t|]; [ | reflexivity].
    rewrite setFullYear_getFullYear, setMonth_getMonth. reflexivity.
  - intros t ->. rewrite setFullYear_getFullYear, monthStep_twelve. reflexivity.
Qed.

(** One year after 2024-01-31 is 366 days later. *)
Lemma addYears_is_twelve_months_witness :
  DateUtils.addYears Examples.utc (Some Examples.jan31_2024) 1
  = Some (Examples.jan31_2024 + 366 * msPerDay).
Proof.
  rewrite (proj2 (addYears_is_twelve_months Examples.utc
                    (Some Examples.jan31_2024))
             Examples.jan31_2024 eq_refl).
  vm_compute. reflexivity.
Defined.

(** X10.  In a zone whose offset never changes, [startOfDay] and [endOfDay]
    are the first and the last millisecond of the local day of the date,
    which lies between them. *)
Theorem start_end_of_day (offset t : Z) :
  let midnight := t - TimeWithinDay (t + offset) in
  DateUtils.startOfDay (fixedZone offset) (Some t) = TimeClip midnight
  /\ DateUtils.endOfDay (fixedZone offset) (Some t)
     = TimeClip (midnight + (msPerDay - 1))
  /\ midnight <= t <= midnight + (msPerDay - 1).
Proof.
  cbv zeta. unfold DateUtils.startOfDay, DateUtils.endOfDay, setHours.
  cbv zeta. unfold UTC, LocalTime, fixedZone, MakeDate, MakeTime.
  cbn [offsetAtUTC offsetAtLocal].
  pose proof (MakeDate_Day (t + offset)) as H. unfold MakeDate in H.
  pose proof (TimeWithinDay_range (t + offset)) as Hr.
  split; [f_equal; lia|]. split; [f_equal; unfold msPerDay in *; lia|].
  lia.
Qed.

(** X11.  [endOfMonth] of 2024-01-15 is the last millisecond of 31 January,
    but [endOfMonth] of 2024-01-31 is the last millisecond of 29 February:
    the step to the next month overflows into March before the date is set
    to 0. *)
Theorem endOfMonth_examples :
  DateUtils.endOfMonth Examples.utc (Some Examples.jan15_2024)
  = Some (Examples.jan31_2024 + (msPerDay - 1))
  /\ DateUtils.endOfMonth Examples.utc (Some Examples.jan31_2024)
     = Some (Examples.feb29_2024 + (msPerDay - 1))
  /\ fields Examples.jan15_2024 = (2024, 0, 15)
  /\ fields (Examples.jan31_2024 + (msPerDay - 1)) = (2024, 0, 31)
  /\ fields (Examples.feb29_2024 + (msPerDay - 1)) = (2024, 1, 29).
Proof. repeat split; vm_compute; reflexivity. Qed.

(** ** services/subscription-service.js *)

(** [recordPayment()] on a next billing date that is no date: the entry is
    pushed, then [toISOString] throws. *)
Lemma recordPayment_invalid_date tza now (s : Subscription.t) :
  newDate (Subscription.nextBillingDate s) = None ->
  Subscription.recordPayment tza now s
  = (Err "Invalid time value",
     Subscription.set_history s
       (Subscription.history s
        ++ [ {| Payment.date := Subscription.nextBillingDate s;
                Payment.amount := Subscription.cost s;
                Payment.currency := Subscription.currency s |} ])).
Proof.
  intros H. unfold Subscription.recordPayment. cbv zeta.
  rewrite method_ignores_history.
  unfold Subscription.calculateNextBillingDate. cbv zeta. rewrite H.
  destruct (BillingCycle.type (Subscription.billingCycle s) =? "daily")%string;
    [reflexivity|].
  destruct (BillingCycle.type (Subscription.billingCycle s) =? "weekly")%string;
    [reflexivity|].
  destruct (BillingCycle.type (Subscription.billingCycle s) =? "monthly")%string;
    [reflexivity|].
  destruct (BillingCycle.type (Subscription.billingCycle s) =? "quarterly")%string;
    [reflexivity|].
  destruct (BillingCycle.type (Subscription.billingCycle s) =? "yearly")%string;
    [reflexivity|].
  destruct (BillingCycle.type (Subscription.billingCycle s) =? "custom")%string;
    [ | reflexivity].
  destruct (BillingCycle.customDays (Subscription.billingCycle s)) as [n|];
    [ | reflexivity].
  destruct (truthy_int n); reflexivity.
Qed.

(** X12.  Recording a payment is not all or nothing.  On a stored
    subscription whose next billing date is not a date, [recordPayment]
    throws (RangeError: Invalid time value) after it has pushed the history
    entry: the stored record keeps the entry, with its next billing date and
    its date of update as they were. *)
Theorem recordPayment_not_atomic tza now subs id i e :
  Spec.foundAt Subscription.id subs id i e ->
  newDate (Subscription.nextBillingDate e) = None ->
  Subscription.recordPayment tza now e
  = (Err "Invalid time value",
     Subscription.set_history e
       (Subscription.history e
        ++ [ {| Payment.date := Subscription.nextBillingDate e;
                Payment.amount := Subscription.cost e;
                Payment.currency := Subscription.currency e |} ]))
  /\ SubscriptionService.recordPayment tza now subs id
     = (Err "Invalid time value",
        Spec.replaced subs i
          (Subscription.set_history e
             (Subscription.history e
              ++ [ {| Payment.date := Subscription.nextBillingDate e;
                      Payment.amount := Subscription.cost e;
                      Payment.currency := Subscription.currency e |} ]))).
Proof.
  intros Hf Hd. split; [apply (recordPayment_invalid_date tza now e Hd)|].
  unfold SubscriptionService.recordPayment.
  rewrite (findIndex_foundAt Subscription.id subs id i e Hf).
  rewrite (recordPayment_invalid_date tza now e Hd).
  rewrite (insert_replaced subs i e _ (proj1 Hf)). reflexivity.
Qed.

Lemma recordPayment_not_atomic_witness :
  SubscriptionService.recordPayment Examples.utc 5 [Examples.undated] "s3"
  = (Err "Invalid time value",
     [Subscription.set_history Examples.undated
        [ {| Payment.date := TsText None; Payment.amount := 10;
             Payment.currency := "USD" |} ]]).
Proof.
  refine (proj2 (recordPayment_not_atomic Examples.utc 5 [Examples.undated]
                   "s3"%string 0%nat Examples.undated _ eq_refl)).
  split; [reflexivity | split; [reflexivity | intros ? ? ?; lia]].
Defined.

(** X13.  Every stored subscription is either among the active or among
    the inactive ones, never among both, and the two lists together are as
    long as the collection. *)
Theorem active_inactive_partition (subs : list Subscription.t) :
  (forall s, In s subs <->
             In s (SubscriptionService.getActive subs)
             \/ In s (SubscriptionService.getInactive subs))
  /\ (forall s, ~ (In s (SubscriptionService.getActive subs)
                   /\ In s (SubscriptionService.getInactive subs)))
  /\ (length (SubscriptionService.getActive subs)
      + length (SubscriptionService.getInactive subs) = length subs)%nat.
Proof.
  unfold SubscriptionService.getActive, SubscriptionService.getInactive.
  split; [ | split].
  - intros s. rewrite !filter_In.
    destruct (Subscription.isActive s); cbn; tauto.
  - intros s [H1 H2]. apply filter_In in H1, H2.
    destruct H1 as [_ H1], H2 as [_ H2]. rewrite H1 in H2. discriminate H2.
  - induction subs as [|x l IH]; [reflexivity|].
    cbn [List.filter]. destruct (Subscription.isActive x); cbn; lia.
Qed.

(** X14.  [delete(id)] removes the first stored record with the identifier
    and no other, in place: the records before and after it keep their
    order, and the collection is one shorter.  Without such a record it
    throws and the collection is unchanged. *)
Theorem delete_removes_first subs id :
  (forall i e, Spec.foundAt Subscription.id subs id i e ->
     SubscriptionService.delete subs id
     = (Ok true, firstn i subs ++ skipn (S i) subs)
     /\ S (length (snd (SubscriptionService.delete subs id))) = length subs)
  /\ ((forall x, In x subs -> Subscription.id x <> id) ->
      SubscriptionService.delete subs id = (Err "Subscription not found", subs)).
Proof.
  unfold SubscriptionService.delete. split.
  - intros i e Hf.
    rewrite (findIndex_foundAt Subscription.id subs id i e Hf).
    split; [reflexivity|]. cbn [snd].
    destruct Hf as (Hn & _).
    assert (i < length subs)%nat as Hi
      by (apply nth_error_Some; rewrite Hn; discriminate).
    rewrite length_app, length_firstn, length_skipn. lia.
  - intros H. rewrite (findIndex_none Subscription.id subs id H). reflexivity.
Qed.

Lemma delete_removes_first_witness :
  SubscriptionService.delete
    [Examples.dueOn 0 1 []; Examples.costing 10 (Examples.cycle "monthly" None);
     Examples.costing 20 (Examples.cycle "yearly" None)] "s1"
  = (Ok true,
     [Examples.dueOn 0 1 []; Examples.costing 20 (Examples.cycle "yearly" None)])
  /\ SubscriptionService.delete Examples.stored "s9"
     = (Err "Subscription not found", Examples.stored).
Proof.
  split.
  - refine (proj1 (proj1 (delete_removes_first _ "s1"%string) 1%nat
                     (Examples.costing 10 (Examples.cycle "monthly" None)) _)).
    split; [reflexivity|]. split; [reflexivity|].
    intros j x Hj Hx. destruct j as [|j]; [ | lia].
    injection Hx as <-. discriminate.
  - apply (proj2 (delete_removes_first _ "s9"%string)).
    intros x [<- | []]. discriminate.
Defined.

(** X15.  When [create] returns, the record returned is the one that the
    constructor built, it is valid, it is the last of the collection, and
    [getById] of its identifier finds it, provided no record stored before
    has that identifier. *)
Theorem create_then_getById uuid now subs data r subs' :
  SubscriptionService.create uuid now subs data = (Ok r, subs') ->
  (forall x, In x subs -> Subscription.id x <> Subscription.id r) ->
  SubscriptionService.getById subs' (Subscription.id r) = Some r
  /\ r = Subscription.new uuid now data
  /\ subs' = subs ++ [r]
  /\ Subscription.validate r = [].
Proof.
  unfold SubscriptionService.create. cbv zeta.
  remember (Subscription.new uuid now data) as r0 eqn:Hr0.
  destruct (Subscription.validate r0) as [|m l] eqn:E;
    cbn [length Nat.ltb Nat.leb]; [ | discriminate].
  intros H Hfresh. injection H as <- <-.
  split; [ | split; [reflexivity | split; [reflexivity | exact E]]].
  unfold SubscriptionService.getById.
  induction subs as [|x l IH]; cbn [app List.find].
  - rewrite String.eqb_refl. reflexivity.
  - rewrite (proj2 (String.eqb_neq _ _) (Hfresh x (or_introl eq_refl))).
    apply IH. intros y Hy. apply Hfresh. right. exact Hy.
Qed.

Lemma create_then_getById_witness :
  SubscriptionService.getById
    (Examples.stored
     ++ [Subscription.new "fresh" 0 (Examples.formData "Films" 15 "monthly")])
    "fresh"
  = Some (Subscription.new "fresh" 0 (Examples.formData "Films" 15 "monthly")).
Proof.
  refine (proj1 (create_then_getById "fresh" 0 Examples.stored
                   (Examples.formData "Films" 15 "monthly") _ _ eq_refl _)).
  intros x [<- | []]. discriminate.
Defined.

(** X16.  The defensive branches of the monthly cost: a custom cycle whose
    [customDays] is unset or 0 is taken as one of 30 days, and a type
    outside the six leaves the cost as it is. *)
Theorem monthly_cost_fallback (s : Subscription.t) :
  let cost := Subscription.cost s in
  let type := BillingCycle.type (Subscription.billingCycle s) in
  let customDays := BillingCycle.customDays (Subscription.billingCycle s) in
  (type = "custom"%string -> customDays = None \/ customDays = Some 0 ->
   SubscriptionService.getSubscriptionMonthlyCost s = (cost / 30 * 30)%float)
  /\ (~ In type Subscription.cycleTypes ->
      SubscriptionService.getSubscriptionMonthlyCost s = cost).
Proof.
  cbv zeta. unfold SubscriptionService.getSubscriptionMonthlyCost. cbv zeta.
  split.
  - intros -> [-> | ->]; reflexivity.
  - intros H. destruct (not_in_cycleTypes _ H) as (-> & -> & -> & -> & -> & ->).
    reflexivity.
Qed.

Lemma monthly_cost_fallback_witness :
  SubscriptionService.getSubscriptionMonthlyCost
    (Examples.costing 10 (Examples.cycle "custom" None)) = 10%float
  /\ SubscriptionService.getSubscriptionMonthlyCost
       (Examples.costing 10 (Examples.cycle "biweekly" None)) = 10%float.
Proof.
  pose proof (monthly_cost_fallback
                (Examples.costing 10 (Examples.cycle "custom" None)))
    as (H1 & _).
  pose proof (monthly_cost_fallback
                (Examples.costing 10 (Examples.cycle "biweekly" None)))
    as (_ & H2).
  split.
  - rewrite (H1 eq_refl (or_introl eq_refl)). vm_compute. reflexivity.
  - apply H2. cbv. intuition discriminate.
Defined.
